(** * eos-dropbox-app: the portal launcher (portallauncher.py)

    A shallow embedding of [PortalLauncher]: the choice between the
    OpenFile and the OpenURI methods of the org.freedesktop.portal.OpenURI
    interface, the subscription to the Response signal of the request
    object, and the handler of that signal.

    The program talks to three things it does not own: the file system
    ([os.open]), the portal (two D-Bus methods) and the session bus
    connection (signal subscriptions).  Their answers are the fields of a
    [World]; what the program does to them is recorded, in order, as a list
    of [event]s, and the subscriptions live in the state of the connection. *)

From Stdlib Require Import String Ascii List ZArith Bool Arith Lia.
Import ListNotations.
Open Scope string_scope.

(** ** urllib.parse

    [urlparse] and [geturl] belong to the Python library, not to this
    program: the launcher is verified against any implementation of them. *)

Record ParseResult := mkParseResult {
  scheme : string;
  netloc : string;
  path : string;
  query : string;
  fragment : string
}.

Class UrlLib := {
  urlparse : string -> ParseResult;
  geturl : ParseResult -> string
}.

(** ** GLib errors *)

Record GError := mkGError {
  domain : string;     (* the quark, as the string it interns *)
  code : Z;
  message : string
}.

Definition dbus_error_quark : string := "g-dbus-error-quark".
Definition DBusError_UNKNOWN_METHOD : Z := 19.
Definition DBusSignalFlags_NO_MATCH_RULE : Z := 1.

(* GLib.GError.matches(domain, code) *)
Definition matches (e : GError) (d : string) (c : Z) : bool :=
  String.eqb (domain e) d && Z.eqb (code e) c.

(** ** Python values the launcher handles *)

(* An object the launcher only stores and passes on (the callback, its data). *)
Definition pyobject := nat.

Inductive exn :=
| FileNotFoundError (strerror : string)
| OSError (strerror : string)
| GLib_GError (e : GError).

(* Truth value of a str, and of [handle], which is None or a str. *)
Definition truthy_str (s : string) : bool := negb (String.eqb s "").

Definition truthy (handle : option string) : bool :=
  match handle with
  | None => false
  | Some s => truthy_str s
  end.

Definition O_CLOEXEC : Z := 524288.   (* 0o2000000 *)
Definition O_PATH : Z := 2097152.     (* 0o10000000 *)

(** ** The world outside the program *)

Inductive open_result :=
| Opened (fd : Z)
| NotFound (strerror : string)        (* ENOENT: FileNotFoundError *)
| OpenFailed (strerror : string).     (* any other OSError *)

Inductive reply (A : Type) :=
| Returned (a : A)
| Failed (e : GError).
Arguments Returned {A} a.
Arguments Failed {A} e.

(* a{sv}; the launcher only ever passes the empty one *)
Definition vardict := list (string * string).

Record World := mkWorld {
  os_open : string -> Z -> open_result;
  (* OpenFile (sha{sv}) with the descriptor list that travels with it *)
  portal_OpenFile : string -> Z -> vardict -> list Z -> reply string;
  (* OpenURI (ssa{sv}); the proxy unpacks the reply, None for an empty one *)
  portal_OpenURI : string -> string -> vardict -> reply (option string)
}.

(** ** The bus connection *)

Record subscription := mkSubscription {
  sub_sender : string;
  sub_interface : string;
  sub_member : string;
  sub_object_path : option string;    (* None matches every path *)
  sub_flags : Z;
  sub_callback : option pyobject;     (* user data of the handler *)
  sub_data : pyobject
}.

Record connection := mkConnection {
  subscriptions : list (nat * subscription);
  next_id : nat
}.

Definition new_connection : connection :=
  {| subscriptions := []; next_id := 1 |}.

Inductive level := INFO | WARNING | ERROR.

Inductive event :=
| Log (l : level) (msg : string)
| OsOpen (p : string) (flags : Z) (r : open_result)
| OpenFile (parent_window : string) (fd_index : Z) (options : vardict)
           (fd_list : list Z) (r : reply string)
| OpenURI (parent_window uri : string) (options : vardict)
          (r : reply (option string))
| Subscribed (id : nat) (s : subscription)
| Unsubscribed (id : nat)
| Callback (f : pyobject) (data : pyobject).

(** ** The monad of the program: events, connection state, exceptions *)

Inductive outcome (A : Type) :=
| Ok (a : A)
| Raise (e : exn).
Arguments Ok {A} a.
Arguments Raise {A} e.

Record result (A : Type) := mkResult {
  events : list event;
  final : connection;
  value : outcome A
}.
Arguments mkResult {A} _ _ _.
Arguments events {A} _.
Arguments final {A} _.
Arguments value {A} _.

Definition M (A : Type) := connection -> result A.

Definition ret {A} (a : A) : M A := fun c => mkResult [] c (Ok a).

Definition raise {A} (e : exn) : M A := fun c => mkResult [] c (Raise e).

Definition bind {A B} (m : M A) (k : A -> M B) : M B :=
  fun c =>
    match m c with
    | mkResult ev c1 (Ok a) =>
        match k a c1 with
        | mkResult ev' c2 v => mkResult (ev ++ ev') c2 v
        end
    | mkResult ev c1 (Raise e) => mkResult ev c1 (Raise e)
    end.

(* try: m  except Exception as e: h e *)
Definition try_except {A} (m : M A) (h : exn -> M A) : M A :=
  fun c =>
    match m c with
    | mkResult ev c1 (Ok a) => mkResult ev c1 (Ok a)
    | mkResult ev c1 (Raise e) =>
        match h e c1 with
        | mkResult ev' c2 v => mkResult (ev ++ ev') c2 v
        end
    end.

Definition emit (e : event) : M unit := fun c => mkResult [e] c (Ok tt).

Declare Scope prog_scope.
Delimit Scope prog_scope with prog.
Notation "x <- m ;; k" := (bind m (fun x => k))
  (at level 61, m at next level, right associativity) : prog_scope.
Notation "m ;; k" := (bind m (fun _ => k))
  (at level 61, right associativity) : prog_scope.
Open Scope prog_scope.

Definition logging (l : level) (msg : string) : M unit := emit (Log l msg).

(* os.open(path, flags) *)
Definition of_open_result (r : open_result) : outcome Z :=
  match r with
  | Opened fd => Ok fd
  | NotFound s => Raise (FileNotFoundError s)
  | OpenFailed s => Raise (OSError s)
  end.

Definition os_open_call (w : World) (p : string) (flags : Z) : M Z :=
  fun c =>
    mkResult [OsOpen p flags (os_open w p flags)] c
      (of_open_result (os_open w p flags)).

Definition of_reply {A} (r : reply A) : outcome A :=
  match r with
  | Returned a => Ok a
  | Failed e => Raise (GLib_GError e)
  end.

(* proxy.call_with_unix_fd_list_sync('OpenFile', (parent, index, options), ..., fds) *)
Definition call_OpenFile (w : World) (parent : string) (idx : Z)
    (options : vardict) (fds : list Z) : M string :=
  fun c =>
    mkResult
      [OpenFile parent idx options fds
         (portal_OpenFile w parent idx options fds)]
      c (of_reply (portal_OpenFile w parent idx options fds)).

(* proxy.OpenURI('(ssa{sv})', parent, uri, options) *)
Definition call_OpenURI (w : World) (parent uri : string)
    (options : vardict) : M (option string) :=
  fun c =>
    mkResult [OpenURI parent uri options (portal_OpenURI w parent uri options)]
      c (of_reply (portal_OpenURI w parent uri options)).

(* connection.signal_subscribe(...): registers and returns the id *)
Definition signal_subscribe (s : subscription) : M nat :=
  fun c =>
    let id := next_id c in
    mkResult [Subscribed id s]
      {| subscriptions := subscriptions c ++ [(id, s)]; next_id := S id |}
      (Ok id).

(* connection.signal_unsubscribe(id); the launcher never calls it *)
Definition signal_unsubscribe (id : nat) : M unit :=
  fun c =>
    mkResult [Unsubscribed id]
      {| subscriptions :=
           filter (fun p => negb (Nat.eqb (fst p) id)) (subscriptions c);
         next_id := next_id c |}
      (Ok tt).

(** ** class PortalLauncher *)

Module PortalLauncher.

Record t := mk {
  _is_local_file : bool;
  _path : string;
  _url : string;
  _callback : option pyobject;
  _data : pyobject
}.

Definition __init__ {U : UrlLib} (target : string)
    (callback : option pyobject) (data : pyobject) : t :=
  let parsed_url := urlparse target in
  {| _is_local_file :=
       negb (truthy_str (scheme parsed_url))
       || String.eqb (scheme parsed_url) "file";
     _path := path parsed_url;
     _url := geturl parsed_url;
     _callback := callback;
     _data := data |}.

Definition _response_received (sender object_path interface signal : string)
    (params : Z * vardict) (callback : option pyobject) (data : pyobject)
    : M unit :=
  let '(response_code, results) := params in
  (if Z.eqb response_code 0 then
     logging INFO "OpenURI portal: success!"
   else if Z.eqb response_code 1 then
     logging INFO "OpenURI portal: cancelled by the user"
   else if Z.eqb response_code 2 then
     logging WARNING "OpenURI portal: An error happened"
   else ret tt) ;;
  match callback with
  | Some f => emit (Callback f data)
  | None => ret tt
  end.

Definition _run_open_file_method (w : World) (self : t) : M string :=
  logging INFO ("Opening path at " ++ _path self
                ++ " (method: OpenURI.OpenFile)...") ;;
  fd <- try_except
          (os_open_call w (_path self) (Z.lor O_PATH O_CLOEXEC))
          (fun e =>
             match e with
             | FileNotFoundError strerror =>
                 logging ERROR ("Can't find path at " ++ _path self ++ ": "
                                ++ strerror) ;;
                 raise e
             | _ => raise e
             end) ;;
  handle <- call_OpenFile w "" 0 [] [fd] ;;
  ret handle.

Definition _run_open_uri_method (w : World) (self : t) : M (option string) :=
  let uri := if negb (_is_local_file self) then _url self
             else "file://" ++ _path self in
  logging INFO ("Opening URI at " ++ uri ++ " (method: OpenURI.OpenURI)...") ;;
  call_OpenURI w "" uri [].

Definition response_subscription (self : t) (handle : option string)
    : subscription :=
  {| sub_sender := "org.freedesktop.portal.Desktop";
     sub_interface := "org.freedesktop.portal.Request";
     sub_member := "Response";
     sub_object_path := handle;
     sub_flags := DBusSignalFlags_NO_MATCH_RULE;
     sub_callback := _callback self;
     sub_data := _data self |}.

Definition run (w : World) (self : t) : M unit :=
  handle <-
    (if _is_local_file self then
       try_except
         (logging INFO
            "Detected file/URI pointing to a local path. Using OpenFile method..." ;;
          h <- _run_open_file_method w self ;;
          ret (Some h))
         (fun e =>
            match e with
            | GLib_GError g =>
                if negb (matches g dbus_error_quark DBusError_UNKNOWN_METHOD)
                then
                  logging ERROR ("Could not open file at " ++ _path self
                                 ++ ": " ++ message g) ;;
                  raise e
                else
                  logging WARNING
                    "OpenFile method not available, falling back to OpenURI..." ;;
                  ret None
            | _ => raise e
            end)
     else ret None) ;;
  handle <- (if negb (truthy handle) then _run_open_uri_method w self
             else ret handle) ;;
  if truthy handle then
    signal_subscribe (response_subscription self handle) ;;
    ret tt
  else
    logging WARNING "Could not get a handle from the OpenURI portal!".

End PortalLauncher.

(** ** Delivery of signals by the connection

    A signal that reaches the connection is handed to every subscription it
    matches and that is still registered when its turn comes.  The only
    handler the launcher registers is [_response_received], with the
    callback and the data as user data.  The sender of a [signal] is the
    bus name the subscriber knows the emitter by. *)

Record signal := mkSignal {
  sig_sender : string;
  sig_object_path : string;
  sig_interface : string;
  sig_member : string;
  sig_params : Z * vardict
}.

Definition subscription_matches (s : subscription) (sg : signal) : bool :=
  String.eqb (sub_sender s) (sig_sender sg)
  && String.eqb (sub_interface s) (sig_interface sg)
  && String.eqb (sub_member s) (sig_member sg)
  && match sub_object_path s with
     | None => true
     | Some p => String.eqb p (sig_object_path sg)
     end.

Definition registered (id : nat) (c : connection) : bool :=
  existsb (fun p => Nat.eqb (fst p) id) (subscriptions c).

Definition handle_signal (id : nat) (s : subscription) (sg : signal) : M unit :=
  fun c =>
    if registered id c && subscription_matches s sg then
      (* an exception of a handler is reported and dropped *)
      try_except
        (PortalLauncher._response_received
           (sig_sender sg) (sig_object_path sg) (sig_interface sg)
           (sig_member sg) (sig_params sg) (sub_callback s) (sub_data s))
        (fun _ => ret tt) c
    else ret tt c.

Fixpoint dispatch (subs : list (nat * subscription)) (sg : signal) : M unit :=
  match subs with
  | [] => ret tt
  | (id, s) :: rest => handle_signal id s sg ;; dispatch rest sg
  end.

Definition deliver (sg : signal) : M unit :=
  fun c => dispatch (subscriptions c) sg c.

Fixpoint deliver_all (sgs : list signal) : M unit :=
  match sgs with
  | [] => ret tt
  | sg :: rest => deliver sg ;; deliver_all rest
  end.

(* The Response signal of the request object at [handle]. *)
Definition Response (handle : string) (response_code : Z) (results : vardict)
    : signal :=
  {| sig_sender := "org.freedesktop.portal.Desktop";
     sig_object_path := handle;
     sig_interface := "org.freedesktop.portal.Request";
     sig_member := "Response";
     sig_params := (response_code, results) |}.

(** ** Observations on a trace *)

Definition is_remote_call (e : event) : bool :=
  match e with
  | OpenFile _ _ _ _ _ | OpenURI _ _ _ _ => true
  | _ => false
  end.

Definition is_OpenFile (e : event) : bool :=
  match e with OpenFile _ _ _ _ _ => true | _ => false end.

Definition is_OpenURI (e : event) : bool :=
  match e with OpenURI _ _ _ _ => true | _ => false end.

Definition is_OsOpen (e : event) : bool :=
  match e with OsOpen _ _ _ => true | _ => false end.

Definition is_Subscribed (e : event) : bool :=
  match e with Subscribed _ _ => true | _ => false end.

Definition is_Callback (e : event) : bool :=
  match e with Callback _ _ => true | _ => false end.

Definition is_Log (e : event) : bool :=
  match e with Log _ _ => true | _ => false end.

Definition remote_calls (tr : list event) : list event :=
  filter is_remote_call tr.

Definition callbacks (tr : list event) : list event := filter is_Callback tr.

Definition count (f : event -> bool) (tr : list event) : nat :=
  List.length (filter f tr).

(* The handle a remote call brought back, if it brought one back. *)
Definition returned_handle (e : event) : option (option string) :=
  match e with
  | OpenFile _ _ _ _ (Returned h) => Some (Some h)
  | OpenURI _ _ _ (Returned h) => Some h
  | _ => None
  end.

(* The error a remote call failed with, if it failed. *)
Definition call_error (e : event) : option GError :=
  match e with
  | OpenFile _ _ _ _ (Failed g) | OpenURI _ _ _ (Failed g) => Some g
  | _ => None
  end.

(** ** A small urllib for the examples

    Enough of [urlsplit] and [urlunsplit] to run the launcher on plain
    targets: an optional scheme ([letter (letter | digit | + | - | .)*]
    before the first colon, lower-cased), an optional [//authority], a path,
    an optional [?query] and [#fragment].  The theorems hold for any
    [UrlLib]; the scenarios, the witnesses and the counterexample of C6 run
    on this one. *)

Module SimpleUrl.

Definition is_alpha (c : ascii) : bool :=
  let n := nat_of_ascii c in
  ((65 <=? n)%nat && (n <=? 90)%nat) || ((97 <=? n)%nat && (n <=? 122)%nat).

Definition is_scheme_char (c : ascii) : bool :=
  let n := nat_of_ascii c in
  is_alpha c || ((48 <=? n)%nat && (n <=? 57)%nat)
  || Nat.eqb n 43 || Nat.eqb n 45 || Nat.eqb n 46.

Definition lower (c : ascii) : ascii :=
  let n := nat_of_ascii c in
  if ((65 <=? n)%nat && (n <=? 90)%nat)%bool then ascii_of_nat (n + 32) else c.

Fixpoint forallb_str (f : ascii -> bool) (s : string) : bool :=
  match s with
  | EmptyString => true
  | String c r => f c && forallb_str f r
  end.

Fixpoint map_str (f : ascii -> ascii) (s : string) : string :=
  match s with
  | EmptyString => EmptyString
  | String c r => String (f c) (map_str f r)
  end.

(* s.split(c, 1): what precedes the first [c] and what follows it *)
Fixpoint split_first (f : ascii -> bool) (s : string)
    : string * option string :=
  match s with
  | EmptyString => (EmptyString, None)
  | String c r =>
      if f c then (EmptyString, Some r)
      else let '(a, b) := split_first f r in (String c a, b)
  end.

(* what precedes the first character satisfying [f], and the rest with it *)
Fixpoint break_at (f : ascii -> bool) (s : string) : string * string :=
  match s with
  | EmptyString => (EmptyString, EmptyString)
  | String c r =>
      if f c then (EmptyString, s)
      else let '(a, b) := break_at f r in (String c a, b)
  end.

Definition is_char (n : nat) (c : ascii) : bool := Nat.eqb (nat_of_ascii c) n.

Definition starts_with_alpha (s : string) : bool :=
  match s with
  | EmptyString => false
  | String c _ => is_alpha c
  end.

Definition or_empty (o : option string) : string :=
  match o with Some s => s | None => EmptyString end.

Definition urlparse (url : string) : ParseResult :=
  let '(sch, url) :=
    match split_first (is_char 58) url with
    | (pre, Some rest) =>
        if starts_with_alpha pre && forallb_str is_scheme_char pre
        then (map_str lower pre, rest) else (EmptyString, url)
    | (_, None) => (EmptyString, url)
    end in
  let '(loc, url) :=
    match url with
    | String "/" (String "/" r) =>
        break_at (fun c => is_char 47 c || is_char 63 c || is_char 35 c) r
    | _ => (EmptyString, url)
    end in
  let '(url, frag) := split_first (is_char 35) url in
  let '(url, qry) := split_first (is_char 63) url in
  {| scheme := sch; netloc := loc; path := url;
     query := or_empty qry; fragment := or_empty frag |}.

Definition geturl (p : ParseResult) : string :=
  let url := path p in
  let url :=
    if truthy_str (netloc p) then
      "//" ++ netloc p
      ++ (match url with
          | EmptyString => url
          | String "/" _ => url
          | _ => "/" ++ url
          end)
    else url in
  let url := if truthy_str (scheme p) then scheme p ++ ":" ++ url else url in
  let url := if truthy_str (query p) then url ++ "?" ++ query p else url in
  if truthy_str (fragment p) then url ++ "#" ++ fragment p else url.

#[export] Instance urllib : UrlLib := Build_UrlLib urlparse geturl.

End SimpleUrl.

(* the last element of a list, if it has one *)
Definition last_opt {A} (l : list A) : option A :=
  match rev l with
  | x :: _ => Some x
  | [] => None
  end.

Definition last_remote_call (tr : list event) : option event :=
  last_opt (remote_calls tr).

Definition open_flags : Z := Z.lor O_PATH O_CLOEXEC.

(** ** The outcome of a request, as the specification names it

    The program has no such type: it only logs.  [outcome_of_code] and
    [outcome_log] follow the specification (0 is success, 1 is cancelled by
    the user, 2 is an error); they are compared below with what
    [_response_received] logs. *)

Inductive ResponseOutcome := Success | UserCancelled | Error.

Definition outcome_of_code (response_code : Z) : option ResponseOutcome :=
  match response_code with
  | 0%Z => Some Success
  | 1%Z => Some UserCancelled
  | 2%Z => Some Error
  | _ => None
  end.

Definition outcome_log (o : ResponseOutcome) : event :=
  match o with
  | Success => Log INFO "OpenURI portal: success!"
  | UserCancelled => Log INFO "OpenURI portal: cancelled by the user"
  | Error => Log WARNING "OpenURI portal: An error happened"
  end.

(* what one delivery of [sg] to a subscription of the launcher calls back *)
Definition callback_events (s : subscription) (sg : signal) : list event :=
  if subscription_matches s sg then
    match sub_callback s with
    | Some f => [Callback f (sub_data s)]
    | None => []
    end
  else [].

(** ** Scenarios *)

Module Scenario.

Definition report : string := "/home/user/Documents/report.pdf".
Definition request_42 : string :=
  "/org/freedesktop/portal/desktop/request/1_42/t".
Definition ENOENT : string := "No such file or directory".

Definition unknown_method : GError :=
  {| domain := dbus_error_quark;
     code := DBusError_UNKNOWN_METHOD;
     message := "No such method OpenFile" |}.

(* G_DBUS_ERROR_ACCESS_DENIED *)
Definition access_denied : GError :=
  {| domain := dbus_error_quark; code := 9; message := "Access denied" |}.

(* A file system where only [report] exists, and a portal that gives the
   same answer to every call of a method. *)
Definition world (file_reply : reply string)
    (uri_reply : reply (option string)) : World :=
  {| os_open := fun p _ =>
       if String.eqb p report then Opened 3 else NotFound ENOENT;
     portal_OpenFile := fun _ _ _ _ => file_reply;
     portal_OpenURI := fun _ _ _ => uri_reply |}.

Definition done_callback : pyobject := 7.
Definition mainloop : pyobject := 9.

Definition launcher (target : string) : PortalLauncher.t :=
  PortalLauncher.__init__ (U := SimpleUrl.urllib) target
    (Some done_callback) mainloop.

(* a folder whose name holds a character that starts a URL fragment *)
Definition dropbox_1 : string := "/home/user/Dropbox #1".

(* A file system where only [dropbox_1] exists, and a portal that answers
   every call with a request handle. *)
Definition world_of_dropbox_1 : World :=
  {| os_open := fun p _ =>
       if String.eqb p dropbox_1 then Opened 3 else NotFound ENOENT;
     portal_OpenFile := fun _ _ _ _ => Returned request_42;
     portal_OpenURI := fun _ _ _ => Returned (Some request_42) |}.

(* [report] is opened and OpenFile answers with a request handle *)
Definition open_report : result unit :=
  PortalLauncher.run
    (world (Returned request_42) (Returned None))
    (launcher report) new_connection.

(* [report] is opened, OpenFile answers with an empty handle and OpenURI
   with a request handle *)
Definition open_report_empty_handle : result unit :=
  PortalLauncher.run
    (world (Returned "") (Returned (Some request_42)))
    (launcher report) new_connection.

End Scenario.

(** ** More observations on a trace *)

Definition is_Unsubscribed (e : event) : bool :=
  match e with Unsubscribed _ => true | _ => false end.

(* The exception an answer of the world makes the program raise, if any. *)
Definition world_error (e : event) : option exn :=
  match e with
  | OsOpen _ _ r =>
      match of_open_result r with Raise x => Some x | Ok _ => None end
  | OpenFile _ _ _ _ (Failed g) | OpenURI _ _ _ (Failed g) =>
      Some (GLib_GError g)
  | _ => None
  end.

(* The same launcher with another cached URL, or another cached path. *)
Definition with_url (self : PortalLauncher.t) (u : string) : PortalLauncher.t :=
  {| PortalLauncher._is_local_file := PortalLauncher._is_local_file self;
     PortalLauncher._path := PortalLauncher._path self;
     PortalLauncher._url := u;
     PortalLauncher._callback := PortalLauncher._callback self;
     PortalLauncher._data := PortalLauncher._data self |}.

Definition with_path (self : PortalLauncher.t) (p : string) : PortalLauncher.t :=
  {| PortalLauncher._is_local_file := PortalLauncher._is_local_file self;
     PortalLauncher._path := p;
     PortalLauncher._url := PortalLauncher._url self;
     PortalLauncher._callback := PortalLauncher._callback self;
     PortalLauncher._data := PortalLauncher._data self |}.

(** ** xdg-open.py

    The wrapper builds a launcher whose callback is [done_callback] and
    whose data is the main loop, runs it from an idle source, and exits
    with status 0 when [mainloop.run()] returns.

    The main loop is GLib's.  Here it is a list of iterations, each with the
    signals it dispatches: an iteration runs to its end, and [run()] returns
    after the first one in which [quit()] was called.  An exception of a
    callback is reported and dropped.  When no iteration is left and
    [quit()] was not called, [run()] has not returned: there is no exit
    status. *)

Module XdgOpen.

(* the function object [done_callback] and the GLib.MainLoop object *)
Definition done_callback : pyobject := 1.
Definition mainloop : pyobject := 2.

(* does this event call [done_callback(loop)], that is [loop.quit()]? *)
Definition quits (loop : pyobject) (e : event) : bool :=
  match e with
  | Callback f data => Nat.eqb f done_callback && Nat.eqb data loop
  | _ => false
  end.

Definition open_url_on_idle {U : UrlLib} (w : World) (url : string)
    (mainloop : pyobject) : M unit :=
  let launcher := PortalLauncher.__init__ url (Some done_callback) mainloop in
  PortalLauncher.run w launcher.

(* mainloop.run(): the events, and whether it returned *)
Fixpoint mainloop_run (loop : pyobject) (pending : list (list signal))
    (c : connection) : list event * bool :=
  match pending with
  | [] => ([], false)
  | batch :: rest =>
      let r := deliver_all batch c in
      if existsb (quits loop) (events r) then (events r, true)
      else
        let '(ev, returned) := mainloop_run loop rest (final r) in
        ((events r ++ ev)%list, returned)
  end.

(* the program after the arguments are parsed: events and exit status *)
Definition main {U : UrlLib} (w : World) (target : string)
    (pending : list (list signal)) : list event * option Z :=
  let r := try_except (open_url_on_idle w target mainloop)
             (fun _ => ret tt) new_connection in
  if existsb (quits mainloop) (events r) then (events r, Some 0%Z)
  else
    let '(ev, returned) := mainloop_run mainloop pending (final r) in
    ((events r ++ ev)%list, if returned then Some 0%Z else None).

End XdgOpen.

(** ** eos-dropbox-app.py

    The launcher of the Dropbox daemon.  What it asks of the operating
    system and of the Python library is answered by an [Env]; what it does
    is recorded as a list of [action]s.  Log lines keep their format string
    and their arguments apart; an event type among the arguments is its
    number.  Within one call the environment answers the same question the
    same way.

    Taken as they are: logging, the main loop, file monitors and the
    ownership of the bus name do not fail.  The thread that waits for the
    daemon ([_monitorLauncherThreadFunc]) is started but not modelled. *)

(* the exception a run of the portal launcher ended with, if any *)
Definition run_error {A} (r : result A) : option exn :=
  match value r with
  | Ok _ => None
  | Raise e => Some e
  end.

Module App.

Set Warnings "-register-all".

(* what json.loads returns; a float only by whether it is nonzero, which is
   all the program can observe of it; the members of an object in the order
   of the dict, with distinct keys *)
Inductive json :=
| JNull
| JBool (b : bool)
| JInt (n : Z)
| JFloat (nonzero : bool)
| JStr (s : string)
| JArr (items : list json)
| JObj (members : list (string * json)).

Inductive pyexn :=
| KeyError (key : json)
| TypeError (what : string)
| IndexError
| UnboundLocalError (name : string)
| AttributeError (name : string)
| ValueError (msg : string)
| OSError_ (strerror : string)
| FileNotFoundError_ (strerror : string)
| UnicodeDecodeError (msg : string)
| NoSuchProcess (pid : Z)
| AccessDenied (pid : Z)
| SystemExit (retcode : Z)
| PortalError (e : exn).

Inductive FileMonitorEvent :=
| CHANGED | CHANGES_DONE_HINT | DELETED | CREATED | ATTRIBUTE_CHANGED
| PRE_UNMOUNT | UNMOUNTED | MOVED | RENAMED | MOVED_IN | MOVED_OUT.

(* the numbers of Gio.FileMonitorEvent *)
Definition FileMonitorEvent_value (e : FileMonitorEvent) : Z :=
  match e with
  | CHANGED => 0 | CHANGES_DONE_HINT => 1 | DELETED => 2 | CREATED => 3
  | ATTRIBUTE_CHANGED => 4 | PRE_UNMOUNT => 5 | UNMOUNTED => 6 | MOVED => 7
  | RENAMED => 8 | MOVED_IN => 9 | MOVED_OUT => 10
  end%Z.

Definition FileMonitorEvent_eqb (a b : FileMonitorEvent) : bool :=
  match a, b with
  | CHANGED, CHANGED | CHANGES_DONE_HINT, CHANGES_DONE_HINT
  | DELETED, DELETED | CREATED, CREATED
  | ATTRIBUTE_CHANGED, ATTRIBUTE_CHANGED | PRE_UNMOUNT, PRE_UNMOUNT
  | UNMOUNTED, UNMOUNTED | MOVED, MOVED | RENAMED, RENAMED
  | MOVED_IN, MOVED_IN | MOVED_OUT, MOVED_OUT => true
  | _, _ => false
  end.

(* a psutil process: its pid and [p.info['name']], None when psutil could
   not read it *)
Record process := mkProcess {
  pid : Z;
  info_name : option string
}.

(* how the operating system refuses: no such file, or anything else *)
Inductive os_error :=
| ENOENT (strerror : string)
| EOTHER (strerror : string).

(* how config.read() fails *)
Inductive read_error :=
| ReadFailed (strerror : string)
| NotText (msg : string).

(* how Process.terminate() fails *)
Inductive psutil_error := Gone | Denied.

Record Env := mkEnv {
  (* os.path.expanduser; None when the password database has no entry for
     the user and the lookup raises KeyError *)
  expanduser : string -> option string;
  path_exists : string -> bool;
  path_isdir : string -> bool;
  access_W_OK : string -> bool;
  glob : string -> list string;
  (* open(path, 'r'): the message of the OSError, if it fails *)
  open_r : string -> option string;
  (* config.read(): the text, or the error *)
  read : string -> read_error + string;
  (* json.loads: the value, or the message of the ValueError *)
  json_loads : string -> string + json;
  (* shutil.move(src, dst) and os.mkdir(path, mode): the message of the
     OSError, if any *)
  move : string -> string -> option string;
  mkdir : string -> Z -> option string;
  (* psutil.Popen([path]): the process, or the error *)
  popen : string -> os_error + process;
  (* Process.terminate(): the error, if any *)
  terminate : process -> option psutil_error;
  process_iter : list process;
  (* the portal and the file system as the portal launcher sees them *)
  portal : World
}.

Inductive action :=
| ALog (l : level) (fmt : string) (args : list json)
| AExists (p : string) (r : bool)
| AIsDir (p : string) (r : bool)
| AAccess (p : string) (r : bool)
| AGlob (pattern : string) (r : list string)
| AOpen (p : string) (error : option string)
| ARead (p : string)
| AClose (p : string)
| ARmtree (p : string)
| AMove (src dst : string)
| AMkdir (p : string) (mode : Z)
| APopen (argv0 : string)
| AThreadStart
| ATerminate (p : process)
| ABusUnown (id : nat)
| ABusOwn (name : string) (flags : Z) (id : nat)
| AMonitor (p : string)
| AMonitorCancel (p : string)
| AMainloopRun
| AMainloopQuit
| APortal (e : event).

(* the fields of DropboxLauncher; a monitor is named by the path it
   watches; [bus] is the session bus connection, which Gio shares between
   all the portal launchers of the process *)
Record state := mkState {
  _bus_owner_id : nat;
  _quit_if_name_lost : bool;
  _config_monitor : option string;
  _dir_monitor : option string;
  _launcher : option process;
  _daemon : option process;
  bus : connection
}.

Inductive outcome (A : Type) :=
| Return (a : A)
| Raise (e : pyexn).
Arguments Return {A} a.
Arguments Raise {A} e.

Record execution (A : Type) := mkRun {
  trace : list action;
  after : state;
  value : outcome A
}.
Arguments mkRun {A} _ _ _.
Arguments trace {A} _.
Arguments after {A} _.
Arguments value {A} _.

Definition P (A : Type) := state -> execution A.

Definition ret {A} (a : A) : P A := fun st => mkRun [] st (Return a).
Definition raise {A} (e : pyexn) : P A := fun st => mkRun [] st (Raise e).

Definition bind {A B} (m : P A) (k : A -> P B) : P B :=
  fun st =>
    match m st with
    | mkRun tr st1 (Return a) =>
        match k a st1 with
        | mkRun tr' st2 v => mkRun (tr ++ tr') st2 v
        end
    | mkRun tr st1 (Raise e) => mkRun tr st1 (Raise e)
    end.

(* try: m  except: h *)
Definition try_except {A} (m : P A) (h : pyexn -> P A) : P A :=
  fun st =>
    match m st with
    | mkRun tr st1 (Return a) => mkRun tr st1 (Return a)
    | mkRun tr st1 (Raise e) =>
        match h e st1 with
        | mkRun tr' st2 v => mkRun (tr ++ tr') st2 v
        end
    end.

(* try: m  finally: f *)
Definition try_finally {A} (m : P A) (f : P unit) : P A :=
  fun st =>
    match m st with
    | mkRun tr st1 v =>
        match f st1 with
        | mkRun tr' st2 (Return _) => mkRun (tr ++ tr') st2 v
        | mkRun tr' st2 (Raise e) => mkRun (tr ++ tr') st2 (Raise e)
        end
    end.

Definition act (a : action) : P unit := fun st => mkRun [a] st (Return tt).

Definition of_sum {A} (r : pyexn + A) : P A :=
  match r with
  | inl e => raise e
  | inr a => ret a
  end.

(* an operation of the operating system that returns nothing *)
Definition of_error (r : option string) : P unit :=
  match r with
  | Some strerror => raise (OSError_ strerror)
  | None => ret tt
  end.

Definition of_os_error (e : os_error) : pyexn :=
  match e with
  | ENOENT strerror => FileNotFoundError_ strerror
  | EOTHER strerror => OSError_ strerror
  end.

Definition of_read_error (e : read_error) : pyexn :=
  match e with
  | ReadFailed strerror => OSError_ strerror
  | NotText msg => UnicodeDecodeError msg
  end.

Definition of_psutil_error (e : psutil_error) (p : process) : pyexn :=
  match e with
  | Gone => NoSuchProcess (pid p)
  | Denied => AccessDenied (pid p)
  end.

Declare Scope app_scope.
Delimit Scope app_scope with app.
Notation "x <- m ;; k" := (bind m (fun x => k))
  (at level 61, m at next level, right associativity) : app_scope.
Notation "m ;; k" := (bind m (fun _ => k))
  (at level 61, right associativity) : app_scope.
Local Open Scope app_scope.

Definition log (l : level) (fmt : string) (args : list json) : P unit :=
  act (ALog l fmt args).

Definition DROPBOX_AUTOUPDATE_DIR : string := "~/.dropbox-dist".
Definition DROPBOX_CONFIG : string := "~/.dropbox/info.json".
Definition DROPBOX_LAUNCHER : string := "/app/extra/.dropbox-dist/dropboxd".
Definition DROPBOX_DEFAULT_DIR : string := "~/Dropbox".
Definition DROPBOX_DAEMON_NAME : string := "dropbox".

(** *** Python on the values of json.loads *)

(* bool(v) *)
Definition py_bool (v : json) : bool :=
  match v with
  | JNull => false
  | JBool b => b
  | JInt n => negb (Z.eqb n 0)
  | JFloat nonzero => nonzero
  | JStr s => truthy_str s
  | JArr items => match items with [] => false | _ => true end
  | JObj members => match members with [] => false | _ => true end
  end.

(* iter(v): the keys of a dict, the items of a list, the characters of a
   str *)
Definition py_iter (v : json) : pyexn + list json :=
  match v with
  | JObj members => inr (map (fun kv => JStr (fst kv)) members)
  | JArr items => inr items
  | JStr s =>
      inr (map (fun c => JStr (String c EmptyString)) (list_ascii_of_string s))
  | _ => inl (TypeError "object is not iterable")
  end.

Fixpoint lookup (k : string) (members : list (string * json)) : option json :=
  match members with
  | [] => None
  | (k', v) :: rest => if String.eqb k k' then Some v else lookup k rest
  end.

(* l[i] for an int i, negative ones counting from the end *)
Definition index_of {A} (l : list A) (i : Z) : option A :=
  let n := Z.of_nat (List.length l) in
  if (0 <=? i)%Z && (i <? n)%Z then nth_error l (Z.to_nat i)
  else if (i <? 0)%Z && (- n <=? i)%Z then nth_error l (Z.to_nat (n + i))
  else None.

Definition int_index (key : json) : option Z :=
  match key with
  | JInt n => Some n
  | JBool b => Some (if b then 1%Z else 0%Z)
  | _ => None
  end.

(* v[key] *)
Definition py_getitem (v key : json) : pyexn + json :=
  match v with
  | JObj members =>
      match key with
      | JStr k =>
          match lookup k members with
          | Some x => inr x
          | None => inl (KeyError key)
          end
      | JArr _ | JObj _ => inl (TypeError "unhashable type")
      | _ => inl (KeyError key)
      end
  | JArr items =>
      match int_index key with
      | Some i =>
          match index_of items i with
          | Some x => inr x
          | None => inl IndexError
          end
      | None => inl (TypeError "list indices must be integers or slices")
      end
  | JStr s =>
      match int_index key with
      | Some i =>
          match index_of (list_ascii_of_string s) i with
          | Some c => inr (JStr (String c EmptyString))
          | None => inl IndexError
          end
      | None => inl (TypeError "string indices must be integers")
      end
  | _ => inl (TypeError "object is not subscriptable")
  end.

Definition is_str (s : string) (v : json) : bool :=
  match v with
  | JStr s' => String.eqb s' s
  | _ => false
  end.

(* 'path' in v *)
Definition contains_path (v : json) : pyexn + bool :=
  match v with
  | JObj members =>
      inr (existsb (fun kv => String.eqb (fst kv) "path") members)
  | JArr items => inr (existsb (is_str "path") items)
  | JStr s =>
      inr (match String.index 0 "path" s with Some _ => true | None => false end)
  | _ => inl (TypeError "argument is not iterable")
  end.

(* the keys of a dict, as iterating over it gives them *)
Definition keys_of (members : list (string * json)) : list json :=
  map (fun kv => JStr (fst kv)) members.

(* an account that is a dict without the key 'path' *)
Definition account_without_path (v : json) : bool :=
  match v with
  | JObj members =>
      negb (existsb (fun kv => String.eqb (fst kv) "path") members)
  | _ => false
  end.

Definition is_file_action (a : action) : bool :=
  match a with
  | AOpen _ _ | ARead _ | AClose _ => true
  | _ => false
  end.

Definition is_directory_query (a : action) : bool :=
  match a with
  | AIsDir _ _ | AGlob _ _ => true
  | _ => false
  end.

(** *** The functions of the module *)

Definition name_is (name : string) (p : process) : bool :=
  match info_name p with
  | Some n => String.eqb n name
  | None => false
  end.

Definition get_processes_by_name (env : Env) (name : string) : list process :=
  filter (name_is name) (process_iter env).

Definition find_dropbox_daemon (env : Env) : option process :=
  match get_processes_by_name env DROPBOX_DAEMON_NAME with
  | p :: _ => Some p
  | [] => None
  end.

Definition os_path_expanduser (env : Env) (p : string) : P string :=
  match expanduser env p with
  | Some s => ret s
  | None => raise (KeyError (JStr "getpwuid(): uid not found"))
  end.

Definition os_path_exists (env : Env) (p : string) : P bool :=
  act (AExists p (path_exists env p)) ;; ret (path_exists env p).

Definition os_path_isdir (env : Env) (p : string) : P bool :=
  act (AIsDir p (path_isdir env p)) ;; ret (path_isdir env p).

Definition glob_glob (env : Env) (pattern : string) : P (list string) :=
  act (AGlob pattern (glob env pattern)) ;; ret (glob env pattern).

Definition get_default_dropbox_directory (env : Env) : P (option string) :=
  default_dir <- os_path_expanduser env DROPBOX_DEFAULT_DIR ;;
  is_dir <- os_path_isdir env default_dir ;;
  if is_dir then ret (Some default_dir)
  else
    team_dir <- glob_glob env (default_dir ++ " (*)") ;;
    match team_dir with
    | first :: _ => ret (Some first)
    | [] => ret None
    end.

(* the loop over the accounts: the value of 'path' and the account that has
   it, for the first account that has one *)
Fixpoint search_path (json_data : json) (keys : list json)
    : pyexn + option (json * json) :=
  match keys with
  | [] => inr None
  | type_name :: rest =>
      match py_getitem json_data type_name with
      | inl e => inl e
      | inr account =>
          match contains_path account with
          | inl e => inl e
          | inr true =>
              match py_getitem account (JStr "path") with
              | inl e => inl e
              | inr p => inr (Some (p, type_name))
              end
          | inr false => search_path json_data rest
          end
      end
  end.

(* with open(path, 'r') as config: body *)
Definition with_open {A} (env : Env) (p : string) (body : P A) : P A :=
  act (AOpen p (open_r env p)) ;;
  of_error (open_r env p) ;;
  try_finally body (act (AClose p)).

Definition get_dropbox_directory (env : Env) : P (option string) :=
  config_path <- os_path_expanduser env DROPBOX_CONFIG ;;
  log INFO "Looking for Dropbox configuration..." [] ;;
  found <- os_path_exists env config_path ;;
  if negb found then
    log INFO "Dropbox configuration not found" [] ;;
    ret None
  else
    dropbox_dir <-
      with_open env config_path
        (log INFO "Found Dropbox configuration at {}" [JStr config_path] ;;
         act (ARead config_path) ;;
         data <-
           match read env config_path with
           | inl e => raise (of_read_error e)
           | inr text => ret text
           end ;;
         (* json_data stays unbound when json.loads raises ValueError *)
         json_data <-
           match json_loads env data with
           | inr v => ret (Some v)
           | inl msg =>
               log WARNING "Error loading JSON data from {}: {}"
                 [JStr DROPBOX_CONFIG; JStr msg] ;;
               ret None
           end ;;
         json_data <-
           match json_data with
           | Some v => ret v
           | None => raise (UnboundLocalError "json_data")
           end ;;
         keys <- of_sum (py_iter json_data) ;;
         hit <- of_sum (search_path json_data keys) ;;
         let '(path, account_type) :=
           match hit with
           | Some (p, t) => (p, t)
           | None => (JNull, JNull)
           end in
         if py_bool path then
           try_except
             (match path with
              | JStr p =>
                  dropbox_dir <- os_path_expanduser env p ;;
                  log INFO
                    "Found configured Dropbox directory at {} ({} account)"
                    [JStr dropbox_dir; account_type] ;;
                  ret (Some dropbox_dir)
              | _ => raise (TypeError "expected str, bytes or os.PathLike object")
              end)
             (fun e =>
                match e with
                | KeyError _ =>
                    log WARNING
                      "Could not find Dropbox directory in user's configuration"
                      [] ;;
                    ret None
                | _ => raise e
                end)
         else
           log WARNING
             "Could not find user's configuration in Dropbox's configuration file"
             [] ;;
           ret None) ;;
    if negb (truthy dropbox_dir) then
      log WARNING
        "Could not find a valid Dropbox directory in the configuration. Falling back to defaults..."
        [] ;;
      get_default_dropbox_directory env
    else ret dropbox_dir.

(** *** class DropboxLauncher *)

Definition BusNameOwnerFlags_ALLOW_REPLACEMENT : Z := 1.
Definition BusNameOwnerFlags_REPLACE : Z := 2.

(* the bound method [self._directory_handled] and None, as the portal
   launcher stores them *)
Definition directory_handled : pyobject := 3.
Definition py_None : pyobject := 0.

Definition get : P state := fun st => mkRun [] st (Return st).

Definition put (st : state) : P unit := fun _ => mkRun [] st (Return tt).

Definition set_bus_owner_id (id : nat) (st : state) : state :=
  {| _bus_owner_id := id;
     _quit_if_name_lost := _quit_if_name_lost st;
     _config_monitor := _config_monitor st;
     _dir_monitor := _dir_monitor st;
     _launcher := _launcher st;
     _daemon := _daemon st;
     bus := bus st |}.

Definition set_quit_if_name_lost (b : bool) (st : state) : state :=
  {| _bus_owner_id := _bus_owner_id st;
     _quit_if_name_lost := b;
     _config_monitor := _config_monitor st;
     _dir_monitor := _dir_monitor st;
     _launcher := _launcher st;
     _daemon := _daemon st;
     bus := bus st |}.

Definition set_config_monitor (m : option string) (st : state) : state :=
  {| _bus_owner_id := _bus_owner_id st;
     _quit_if_name_lost := _quit_if_name_lost st;
     _config_monitor := m;
     _dir_monitor := _dir_monitor st;
     _launcher := _launcher st;
     _daemon := _daemon st;
     bus := bus st |}.

Definition set_dir_monitor (m : option string) (st : state) : state :=
  {| _bus_owner_id := _bus_owner_id st;
     _quit_if_name_lost := _quit_if_name_lost st;
     _config_monitor := _config_monitor st;
     _dir_monitor := m;
     _launcher := _launcher st;
     _daemon := _daemon st;
     bus := bus st |}.

Definition set_launcher (p : option process) (st : state) : state :=
  {| _bus_owner_id := _bus_owner_id st;
     _quit_if_name_lost := _quit_if_name_lost st;
     _config_monitor := _config_monitor st;
     _dir_monitor := _dir_monitor st;
     _launcher := p;
     _daemon := _daemon st;
     bus := bus st |}.

Definition set_bus (c : connection) (st : state) : state :=
  {| _bus_owner_id := _bus_owner_id st;
     _quit_if_name_lost := _quit_if_name_lost st;
     _config_monitor := _config_monitor st;
     _dir_monitor := _dir_monitor st;
     _launcher := _launcher st;
     _daemon := _daemon st;
     bus := c |}.

Definition modify (f : state -> state) : P unit :=
  fun st => mkRun [] (f st) (Return tt).

(* p.terminate() when p is not None *)
Definition terminate_if_any (env : Env) (p : option process) : P unit :=
  match p with
  | Some proc =>
      act (ATerminate proc) ;;
      match terminate env proc with
      | Some e => raise (of_psutil_error e proc)
      | None => ret tt
      end
  | None => ret tt
  end.

Definition _quit (env : Env) (retcode : Z) : P unit :=
  st <- get ;;
  terminate_if_any env (_launcher st) ;;
  terminate_if_any env (_daemon st) ;;
  act AMainloopQuit ;;
  raise (SystemExit retcode).

Definition _exitOnError (env : Env) (fmt : string) (args : list json)
    : P unit :=
  log ERROR fmt args ;;
  _quit env 1.

Definition _directory_handled (env : Env) (unused : pyobject) : P unit :=
  st <- get ;;
  match _launcher st, _daemon st with
  | None, None =>
      log INFO "Not the main launcher instance. Exiting" [] ;;
      _quit env 0
  | _, _ => ret tt
  end.

(* PortalLauncher(path, callback, data).run() on the shared connection *)
Definition portal_launcher_run {U : UrlLib} (env : Env) (target : string)
    (callback : option pyobject) (data : pyobject) : P unit :=
  fun st =>
    let r := PortalLauncher.run (portal env)
               (PortalLauncher.__init__ target callback data) (bus st) in
    mkRun (map APortal (events r)) (set_bus (final r) st)
      match run_error r with
      | None => Return tt
      | Some e => Raise (PortalError e)
      end.

Definition _open_dropbox_directory {U : UrlLib} (env : Env) : P unit :=
  directory <- get_dropbox_directory env ;;
  log INFO "Attempting to open Dropbox directory at {}..."
    [match directory with Some d => JStr d | None => JNull end] ;;
  if negb (truthy directory) then
    log WARNING "User has not configured Dropbox yet" []
  else
    let directory := match directory with Some d => d | None => "" end in
    is_dir <- os_path_isdir env directory ;;
    (if negb is_dir then
       _exitOnError env "{} is not a directory!" [JStr directory]
     else ret tt) ;;
    path <- os_path_expanduser env directory ;;
    portal_launcher_run env path (Some directory_handled) py_None.

Definition _open_dropbox_when_created {U : UrlLib} (env : Env) : P unit :=
  dropbox_dir <- get_dropbox_directory env ;;
  match dropbox_dir with
  | None =>
      log WARNING
        "No Dropbox folder configured yet. Cannot open or monitor it!" []
  | Some dropbox_dir =>
      found <- os_path_exists env dropbox_dir ;;
      if found then _open_dropbox_directory env
      else
        log INFO "Setting up monitor for folder {}..." [JStr dropbox_dir] ;;
        act (AMonitor dropbox_dir) ;;
        modify (set_dir_monitor (Some dropbox_dir))
  end.

(* monitor.cancel(), an AttributeError when the field is None *)
Definition cancel_monitor (m : option string) (field : string) : P unit :=
  match m with
  | Some p => act (AMonitorCancel p)
  | None => raise (AttributeError field)
  end.


Definition _on_config_changed {U : UrlLib} (env : Env) (file_path : string)
    (event_type : FileMonitorEvent) : P unit :=
  log INFO "Config file monitor {}: {}"
    [JStr file_path; JInt (FileMonitorEvent_value event_type)] ;;
  st <- get ;;
  if negb (FileMonitorEvent_eqb event_type CHANGES_DONE_HINT) then
    match FileMonitorEvent_eqb event_type DELETED, _dir_monitor st with
    | true, Some p => act (AMonitorCancel p)
    | _, _ => ret tt
    end
  else
    cancel_monitor (_config_monitor st) "cancel" ;;
    found <- os_path_exists env file_path ;;
    if found then
      log INFO
        "Configuration for Dropbox created; opening folder when created..."
        [] ;;
      _open_dropbox_when_created env
    else ret tt.

Definition _disable_auto_updates (env : Env) : P unit :=
  orig_dir <- os_path_expanduser env DROPBOX_AUTOUPDATE_DIR ;;
  found <- os_path_exists env orig_dir ;;
  unwritable <-
    (if found then
       act (AAccess orig_dir (access_W_OK env orig_dir)) ;;
       ret (negb (access_W_OK env orig_dir))
     else ret false) ;;
  if unwritable then
    log INFO "{} is already unaccessible. Nothing to do" [JStr orig_dir]
  else
    let backup_dir := orig_dir ++ ".backup" in
    log INFO "Found auto-update directory in {}. Backing it up in {}"
      [JStr orig_dir; JStr backup_dir] ;;
    backup_found <- os_path_exists env backup_dir ;;
    (if backup_found then act (ARmtree backup_dir) else ret tt) ;;
    orig_found <- os_path_exists env orig_dir ;;
    (if orig_found then
       act (AMove orig_dir backup_dir) ;;
       of_error (move env orig_dir backup_dir)
     else ret tt) ;;
    log INFO "Disabling auto-updates by making {} unwritable" [JStr orig_dir] ;;
    act (AMkdir orig_dir 0) ;;
    of_error (mkdir env orig_dir 0).

Definition _launch_dropbox_daemon (env : Env) : P unit :=
  log INFO "Running Dropbox's launcher at {}..." [JStr DROPBOX_LAUNCHER] ;;
  try_except
    (act (APopen DROPBOX_LAUNCHER) ;;
     proc <-
       match popen env DROPBOX_LAUNCHER with
       | inl e => raise (of_os_error e)
       | inr proc => ret proc
       end ;;
     modify (set_launcher (Some proc)) ;;
     act AThreadStart)
    (fun e =>
       match e with
       | FileNotFoundError_ _ =>
           _exitOnError env "Can't find launcher script at {}"
             [JStr DROPBOX_LAUNCHER]
       | _ => raise e
       end).

Definition _setup_config_monitor (env : Env) : P unit :=
  once <- os_path_expanduser env DROPBOX_CONFIG ;;
  config <- os_path_expanduser env once ;;
  act (AMonitor config) ;;
  modify (set_config_monitor (Some config)).

Definition _launch_dropbox (env : Env) : P unit :=
  _disable_auto_updates env ;;
  _launch_dropbox_daemon env ;;
  _setup_config_monitor env.

Definition _try_own_bus_name (replace : bool) : P unit :=
  st <- get ;;
  (if negb (Nat.eqb (_bus_owner_id st) 0) then
     act (ABusUnown (_bus_owner_id st))
   else ret tt) ;;
  let flags := BusNameOwnerFlags_ALLOW_REPLACEMENT in
  flags <-
    (if replace then
       modify (set_quit_if_name_lost true) ;;
       log INFO
         "Trying to own the dropbox dbus name (this time replacing existing ones)..."
         [] ;;
       ret (Z.lor flags BusNameOwnerFlags_REPLACE)
     else
       log INFO "Trying to own the dropbox dbus name..." [] ;;
       ret flags) ;;
  (* Gio.bus_own_name hands out a new, nonzero id *)
  let id := S (_bus_owner_id st) in
  act (ABusOwn "com.dropbox.Client" flags id) ;;
  modify (set_bus_owner_id id).

Definition _name_acquired (env : Env) : P unit :=
  log INFO "No instance of dropbox already running" [] ;;
  modify (set_quit_if_name_lost true) ;;
  _launch_dropbox env.

Definition _name_lost {U : UrlLib} (env : Env) : P unit :=
  st <- get ;;
  if _quit_if_name_lost st then
    log INFO "Lost the DBus name ownership; quitting..." [] ;;
    _quit env 0
  else
    directory <- get_dropbox_directory env ;;
    if negb (truthy directory) then
      log INFO
        "Another instance of dropbox is already running but no Dropbox folder was found; launching the daemon again"
        [] ;;
      _try_own_bus_name true
    else
      log INFO "Another instance of dropbox is already running" [] ;;
      _open_dropbox_when_created env.

(* DropboxLauncher.run *)
Definition run : P unit :=
  _try_own_bus_name false ;;
  act AMainloopRun.

(** *** Callbacks of the main loop

    An exception that leaves a callback is reported and dropped, and the
    loop goes on; SystemExit ends the process. *)

Definition callback (m : P unit) : P unit :=
  try_except m
    (fun e =>
       match e with
       | SystemExit _ => raise e
       | _ => ret tt
       end).

(* what the handlers of a delivery did, in order; a handler that calls
   back [_directory_handled] runs it *)
Fixpoint run_callbacks (env : Env) (evs : list event) : P unit :=
  match evs with
  | [] => ret tt
  | e :: rest =>
      act (APortal e) ;;
      match e with
      | Callback f data =>
          if Nat.eqb f directory_handled then _directory_handled env data
          else ret tt
      | _ => ret tt
      end ;;
      run_callbacks env rest
  end.

(* the session bus delivers [sg] to the connection of the process *)
Definition deliver_signal (env : Env) (sg : signal) : P unit :=
  st <- get ;;
  modify (set_bus (final (deliver sg (bus st)))) ;;
  callback (run_callbacks env (events (deliver sg (bus st)))).

(* the name is lost once for each environment of the list *)
Fixpoint name_lost_each {U : UrlLib} (envs : list Env) : P unit :=
  match envs with
  | [] => ret tt
  | env :: rest => callback (_name_lost env) ;; name_lost_each rest
  end.

Definition is_replace_request (a : action) : bool :=
  match a with
  | ABusOwn _ flags _ => Z.testbit flags 1
  | _ => false
  end.

Definition is_APortal (a : action) : bool :=
  match a with APortal _ => true | _ => false end.

Definition is_SystemExit (e : pyexn) : bool :=
  match e with SystemExit _ => true | _ => false end.

Definition never_exits {A} (v : outcome A) : Prop :=
  match v with
  | Raise e => is_SystemExit e = false
  | Return _ => True
  end.

Definition is_APopen (a : action) : bool :=
  match a with APopen _ => true | _ => false end.

Definition is_AMonitor (a : action) : bool :=
  match a with AMonitor _ => true | _ => false end.

Definition is_monitor_action (a : action) : bool :=
  match a with AMonitor _ | AMonitorCancel _ => true | _ => false end.

Definition is_ALog (a : action) : bool :=
  match a with ALog _ _ _ => true | _ => false end.

Definition is_mutation (a : action) : bool :=
  match a with
  | ARmtree _ | AMove _ _ | AMkdir _ _ => true
  | _ => false
  end.

End App.

(** ** Scenarios for the Dropbox launcher *)

Module AppScenario.

Definition home : string := "/home/user".

(* a leading tilde stands for the home directory *)
Definition expand (p : string) : option string :=
  match p with
  | String "~" rest => Some (home ++ rest)
  | _ => Some p
  end.

Definition config_path : string := "/home/user/.dropbox/info.json".

Definition dropboxd : App.process :=
  {| App.pid := 4242; App.info_name := Some "dropboxd" |}.

(* A machine described by the files and the directories that exist, the
   directories that can be written, what a glob for the team folder finds,
   what json.loads makes of the configuration, and the processes. *)
Definition env (files dirs writable globbed : list string)
    (parsed : string + App.json) (procs : list App.process) : App.Env :=
  {| App.expanduser := expand;
     App.path_exists := fun p => existsb (String.eqb p) (files ++ dirs);
     App.path_isdir := fun p => existsb (String.eqb p) dirs;
     App.access_W_OK := fun p => existsb (String.eqb p) writable;
     App.glob := fun _ => globbed;
     App.open_r := fun _ => None;
     App.read := fun _ => inr "{...}";
     App.json_loads := fun _ => parsed;
     App.move := fun _ _ => None;
     App.mkdir := fun _ _ => None;
     App.popen := fun _ => inr dropboxd;
     App.terminate := fun _ => None;
     App.process_iter := procs;
     App.portal :=
       {| os_open := fun _ _ => Opened 3;
          portal_OpenFile := fun _ _ _ _ => Returned Scenario.request_42;
          portal_OpenURI := fun _ _ _ => Returned (Some Scenario.request_42) |}
  |}.

(* {"personal": {"host": 1, "path": "~/Dropbox (Personal)"},
    "business": {"path": "/data/Team"}} *)
Definition two_accounts : App.json :=
  App.JObj
    [("personal",
      App.JObj [("host", App.JInt 1);
                ("path", App.JStr "~/Dropbox (Personal)")]);
     ("business", App.JObj [("path", App.JStr "/data/Team")])].

Definition fresh : App.state :=
  {| App._bus_owner_id := 0;
     App._quit_if_name_lost := false;
     App._config_monitor := None;
     App._dir_monitor := None;
     App._launcher := None;
     App._daemon := None;
     App.bus := new_connection |}.

(* the launcher and the daemon have been started *)
Definition dropbox_launcher : App.process :=
  {| App.pid := 4100; App.info_name := Some "dropbox" |}.

Definition started : App.state :=
  {| App._bus_owner_id := 0;
     App._quit_if_name_lost := false;
     App._config_monitor := None;
     App._dir_monitor := None;
     App._launcher := Some dropbox_launcher;
     App._daemon := Some dropboxd;
     App.bus := new_connection |}.

End AppScenario.

(** * Proofs *)

Import PortalLauncher.

Ltac unfold_prog :=
  unfold run, _run_open_file_method, _run_open_uri_method,
    _response_received, bind, try_except, logging, emit, ret, raise,
    os_open_call, call_OpenFile, call_OpenURI, signal_subscribe,
    open_flags in *.

(* one step of the case analysis on what the world answers *)
Ltac world_case :=
  match goal with
  | |- context [os_open ?w ?p ?f] =>
      let E := fresh "Eopen" in destruct (os_open w p f) eqn:E
  | |- context [portal_OpenFile ?w ?a ?b ?c ?d] =>
      let E := fresh "Efile" in destruct (portal_OpenFile w a b c d) eqn:E
  | |- context [portal_OpenURI ?w ?a ?b ?c] =>
      let E := fresh "Euri" in destruct (portal_OpenURI w a b c) eqn:E
  | |- context [matches ?g ?d ?c] =>
      let E := fresh "Ematch" in destruct (matches g d c) eqn:E
  | |- context [truthy_str ?s] =>
      let E := fresh "Etruthy" in destruct (truthy_str s) eqn:E
  | |- context [truthy ?h] =>
      let E := fresh "Etruthy" in destruct h; cbn [truthy]
  end; cbn -[String.append Z.lor In].

Ltac run_cases self :=
  unfold_prog; destruct (_is_local_file self) eqn:?;
  cbn -[String.append Z.lor In]; repeat world_case.

(* [H : In x l] for a list [l] that is written out: one goal per element *)
Ltac in_cases H :=
  cbn in H;
  repeat match type of H with
         | _ \/ _ => destruct H as [H | H]
         end;
  try contradiction; try discriminate H.

Ltac count_goals := unfold count, remote_calls, callbacks; cbn; auto with arith.

(** ** The two methods, one answer of the world at a time *)

Lemma open_file_method_missing : forall w self c strerror,
  os_open w (_path self) open_flags = NotFound strerror ->
  _run_open_file_method w self c =
  mkResult
    [Log INFO ("Opening path at " ++ _path self
               ++ " (method: OpenURI.OpenFile)...");
     OsOpen (_path self) open_flags (NotFound strerror);
     Log ERROR ("Can't find path at " ++ _path self ++ ": " ++ strerror)]
    c (Raise (FileNotFoundError strerror)).
Proof.
  intros w self c strerror H. unfold_prog. rewrite H. reflexivity.
Qed.

Lemma open_file_method_opened : forall w self c fd,
  os_open w (_path self) open_flags = Opened fd ->
  _run_open_file_method w self c =
  mkResult
    [Log INFO ("Opening path at " ++ _path self
               ++ " (method: OpenURI.OpenFile)...");
     OsOpen (_path self) open_flags (Opened fd);
     OpenFile "" 0 [] [fd] (portal_OpenFile w "" 0 [] [fd])]
    c (of_reply (portal_OpenFile w "" 0 [] [fd])).
Proof.
  intros w self c fd H. unfold_prog. rewrite H.
  cbn -[String.append Z.lor].
  destruct (portal_OpenFile w "" 0 [] [fd]); reflexivity.
Qed.

Lemma open_uri_method_result : forall w self c,
  let uri := if _is_local_file self then "file://" ++ _path self
             else _url self in
  _run_open_uri_method w self c =
  mkResult
    [Log INFO ("Opening URI at " ++ uri ++ " (method: OpenURI.OpenURI)...");
     OpenURI "" uri [] (portal_OpenURI w "" uri [])]
    c (of_reply (portal_OpenURI w "" uri [])).
Proof.
  intros w self c. unfold_prog.
  destruct (_is_local_file self); cbn -[String.append];
    match goal with |- context [portal_OpenURI ?w ?a ?b ?d] =>
      destruct (portal_OpenURI w a b d) end; reflexivity.
Qed.

(** ** The handler of the Response signal *)

Lemma outcome_of_code_tests : forall response_code,
  outcome_of_code response_code
  = if Z.eqb response_code 0 then Some Success
    else if Z.eqb response_code 1 then Some UserCancelled
    else if Z.eqb response_code 2 then Some Error
    else None.
Proof.
  intros [|p|p]; try reflexivity.
  destruct p as [p|p|]; try reflexivity; destruct p; reflexivity.
Qed.

Lemma response_received_result :
  forall sender object_path interface signal response_code results
         callback data c,
  _response_received sender object_path interface signal
    (response_code, results) callback data c
  = mkResult
      ((match outcome_of_code response_code with
        | Some o => [outcome_log o]
        | None => []
        end)
       ++ match callback with
          | Some f => [Callback f data]
          | None => []
          end)%list
      c (Ok tt).
Proof.
  intros. rewrite outcome_of_code_tests. unfold_prog.
  destruct (Z.eqb response_code 0); [destruct callback; reflexivity |].
  destruct (Z.eqb response_code 1); [destruct callback; reflexivity |].
  destruct (Z.eqb response_code 2); destruct callback; reflexivity.
Qed.

(** C7: whatever integer the Response signal carries, the handler returns
    without raising; what it logs is the line of the outcome the
    specification gives the code (0 success, 1 cancelled by the user, 2
    error) and nothing for any other code; and in every case it calls the
    callback it was given, once, with the data it was given, leaving the
    connection untouched. *)
Theorem response_received_any_code :
  forall sender object_path interface signal response_code results
         callback data c,
  value (_response_received sender object_path interface signal
           (response_code, results) callback data c) = Ok tt
  /\ filter is_Log
       (events (_response_received sender object_path interface signal
                  (response_code, results) callback data c))
     = match outcome_of_code response_code with
       | Some o => [outcome_log o]
       | None => []
       end
  /\ callbacks
       (events (_response_received sender object_path interface signal
                  (response_code, results) callback data c))
     = match callback with
       | Some f => [Callback f data]
       | None => []
       end
  /\ final (_response_received sender object_path interface signal
              (response_code, results) callback data c) = c.
Proof.
  intros. rewrite response_received_result. cbn [value events final].
  unfold callbacks. rewrite !filter_app.
  destruct (outcome_of_code response_code) as [[| |]|]; destruct callback;
    repeat split.
Qed.

(** ** Deliveries to the subscription of one launcher *)

Lemma deliver_no_subscription : forall sgs c,
  subscriptions c = [] ->
  deliver_all sgs c = mkResult [] c (Ok tt).
Proof.
  induction sgs as [|sg sgs IH]; intros c Hc; [reflexivity |].
  cbn [deliver_all]. unfold bind, deliver. rewrite Hc. cbn.
  rewrite (IH c Hc). reflexivity.
Qed.

Lemma deliver_one_subscription : forall id s n sg,
  exists ev,
    deliver sg {| subscriptions := [(id, s)]; next_id := n |}
    = mkResult ev {| subscriptions := [(id, s)]; next_id := n |} (Ok tt)
    /\ callbacks ev = callback_events s sg.
Proof.
  intros id s n [sender p iface member [response_code results]].
  unfold deliver, dispatch, handle_signal, bind, registered, callback_events.
  cbn [subscriptions existsb fst]. rewrite Nat.eqb_refl. cbn [orb andb].
  destruct (subscription_matches s _); cbn -[_response_received].
  - unfold try_except. rewrite response_received_result.
    eexists; split; [reflexivity |].
    unfold callbacks. rewrite !app_nil_r, filter_app.
    destruct (outcome_of_code response_code) as [[| |]|];
      destruct (sub_callback s); reflexivity.
  - eexists; split; reflexivity.
Qed.

Lemma deliver_all_one_subscription : forall id s n sgs,
  exists ev,
    deliver_all sgs {| subscriptions := [(id, s)]; next_id := n |}
    = mkResult ev {| subscriptions := [(id, s)]; next_id := n |} (Ok tt)
    /\ callbacks ev = flat_map (callback_events s) sgs.
Proof.
  intros id s n sgs. induction sgs as [|sg sgs [ev' [IH IHcb]]].
  - exists []. split; reflexivity.
  - destruct (deliver_one_subscription id s n sg) as [ev [H Hcb]].
    exists (ev ++ ev')%list. cbn [deliver_all flat_map]. unfold bind.
    rewrite H, IH. split; [reflexivity |].
    unfold callbacks in *. rewrite filter_app. now rewrite Hcb, IHcb.
Qed.

Lemma callback_events_count : forall s sgs,
  flat_map (callback_events s) sgs
  = match sub_callback s with
    | Some f =>
        repeat (Callback f (sub_data s))
          (List.length (filter (subscription_matches s) sgs))
    | None => []
    end.
Proof.
  intros s sgs. induction sgs as [|sg sgs IH]; cbn.
  - destruct (sub_callback s); reflexivity.
  - rewrite IH. unfold callback_events.
    destruct (subscription_matches s sg), (sub_callback s); reflexivity.
Qed.

Lemma response_subscription_matches : forall self h h' response_code results,
  subscription_matches (response_subscription self (Some h))
    (Response h' response_code results)
  = String.eqb h h'.
Proof. reflexivity. Qed.

(** ** C8 *)

(** C8: whatever the world answers, one execution of [run] issues at most
    two remote calls, at most one OpenFile and then at most one OpenURI,
    and registers at most one subscription on the connection. *)
Theorem run_at_most_two_calls_one_subscription : forall w self c,
  count is_remote_call (events (run w self c)) <= 2
  /\ count is_OpenFile (events (run w self c)) <= 1
  /\ count is_OpenURI (events (run w self c)) <= 1
  /\ (forall pre post, remote_calls (events (run w self c)) = (pre ++ post)%list ->
        existsb is_OpenURI pre = true -> existsb is_OpenFile post = false)
  /\ count is_Subscribed (events (run w self c)) <= 1
  /\ List.length (subscriptions (final (run w self c)))
     <= S (List.length (subscriptions c)).
Proof.
  intros w self c.
  run_cases self.
  all: unfold count, remote_calls; cbn.
  all: repeat split; auto with arith.
  all: try (rewrite length_app; cbn; lia).
  all: intros pre post Hsplit Hpre.
  all: destruct pre as [|x [|y [|z pre]]]; cbn in Hsplit; try discriminate;
       cbn in Hpre; try discriminate.
  all: injection Hsplit as; subst; cbn in *; auto; try discriminate.
Qed.

(** ** C4 *)

(** C4: for a local target whose path does not exist ([os.open] raises
    FileNotFoundError), [run] raises that FileNotFoundError to its caller;
    it issues no remote call (neither OpenFile nor the OpenURI fallback),
    calls nothing back, and leaves the connection as it was: on a
    connection without other subscriptions no later delivery calls anything
    back. *)
Theorem run_missing_local_path : forall w self c strerror,
  _is_local_file self = true ->
  os_open w (_path self) open_flags = NotFound strerror ->
  value (run w self c) = Raise (FileNotFoundError strerror)
  /\ remote_calls (events (run w self c)) = []
  /\ callbacks (events (run w self c)) = []
  /\ count is_Subscribed (events (run w self c)) = 0
  /\ final (run w self c) = c
  /\ (subscriptions c = [] ->
      forall sgs,
        callbacks (events (deliver_all sgs (final (run w self c)))) = []).
Proof.
  intros w self c strerror Hlocal Hopen.
  run_cases self; try congruence.
  injection Hopen as ->. repeat split.
  intros Hc sgs. rewrite (deliver_no_subscription sgs c Hc). reflexivity.
Qed.

Lemma run_missing_local_path_witness :
  value (run (Scenario.world (Returned Scenario.request_42)
                (Returned (Some Scenario.request_42)))
           (Scenario.launcher "/missing/file.txt") new_connection)
  = Raise (FileNotFoundError Scenario.ENOENT)
  /\ remote_calls
       (events (run (Scenario.world (Returned Scenario.request_42)
                       (Returned (Some Scenario.request_42)))
                  (Scenario.launcher "/missing/file.txt") new_connection))
     = []
  /\ callbacks
       (events (run (Scenario.world (Returned Scenario.request_42)
                       (Returned (Some Scenario.request_42)))
                  (Scenario.launcher "/missing/file.txt") new_connection))
     = []
  /\ count is_Subscribed
       (events (run (Scenario.world (Returned Scenario.request_42)
                       (Returned (Some Scenario.request_42)))
                  (Scenario.launcher "/missing/file.txt") new_connection))
     = 0
  /\ final (run (Scenario.world (Returned Scenario.request_42)
                   (Returned (Some Scenario.request_42)))
              (Scenario.launcher "/missing/file.txt") new_connection)
     = new_connection
  /\ (subscriptions new_connection = [] ->
      forall sgs,
        callbacks
          (events
             (deliver_all sgs
                (final (run (Scenario.world (Returned Scenario.request_42)
                               (Returned (Some Scenario.request_42)))
                          (Scenario.launcher "/missing/file.txt")
                          new_connection))))
        = []).
Proof.
  apply (run_missing_local_path
           (Scenario.world (Returned Scenario.request_42)
              (Returned (Some Scenario.request_42)))
           (Scenario.launcher "/missing/file.txt") new_connection
           Scenario.ENOENT); reflexivity.
Defined.

(** ** C5 *)

(** C5: for a local target whose path was opened, if the OpenFile call
    fails with the D-Bus error UNKNOWN_METHOD, the remote calls of [run] are
    that OpenFile call and then one OpenURI call on [file://<path>]; if it
    fails with any other error, the OpenFile call is the only remote call
    and [run] raises that error. *)
Theorem run_file_method_failure : forall w self c fd g,
  _is_local_file self = true ->
  os_open w (_path self) open_flags = Opened fd ->
  portal_OpenFile w "" 0 [] [fd] = Failed g ->
  (matches g dbus_error_quark DBusError_UNKNOWN_METHOD = true ->
     remote_calls (events (run w self c)) =
     [OpenFile "" 0 [] [fd] (Failed g);
      OpenURI "" ("file://" ++ _path self) []
        (portal_OpenURI w "" ("file://" ++ _path self) [])])
  /\ (matches g dbus_error_quark DBusError_UNKNOWN_METHOD = false ->
      remote_calls (events (run w self c)) = [OpenFile "" 0 [] [fd] (Failed g)]
      /\ value (run w self c) = Raise (GLib_GError g)).
Proof.
  intros w self c fd g Hlocal Hopen Hfile.
  run_cases self; try congruence.
  all: injection Hopen as ->; rewrite Hfile in *.
  all: match goal with H : Failed _ = Failed _ |- _ => injection H as -> end.
  all: split; intro Hm; try congruence; repeat split.
Qed.

Lemma run_file_method_failure_witness :
  remote_calls
    (events (run (Scenario.world (Failed Scenario.unknown_method)
                    (Returned (Some Scenario.request_42)))
               (Scenario.launcher Scenario.report) new_connection))
  = [OpenFile "" 0 [] [3%Z] (Failed Scenario.unknown_method);
     OpenURI "" "file:///home/user/Documents/report.pdf" []
       (Returned (Some Scenario.request_42))]
  /\ remote_calls
       (events (run (Scenario.world (Failed Scenario.access_denied)
                       (Returned (Some Scenario.request_42)))
                  (Scenario.launcher Scenario.report) new_connection))
     = [OpenFile "" 0 [] [3%Z] (Failed Scenario.access_denied)]
  /\ value (run (Scenario.world (Failed Scenario.access_denied)
                   (Returned (Some Scenario.request_42)))
              (Scenario.launcher Scenario.report) new_connection)
     = Raise (GLib_GError Scenario.access_denied).
Proof.
  split.
  - apply (run_file_method_failure
             (Scenario.world (Failed Scenario.unknown_method)
                (Returned (Some Scenario.request_42)))
             (Scenario.launcher Scenario.report) new_connection 3%Z
             Scenario.unknown_method); reflexivity.
  - apply (run_file_method_failure
             (Scenario.world (Failed Scenario.access_denied)
                (Returned (Some Scenario.request_42)))
             (Scenario.launcher Scenario.report) new_connection 3%Z
             Scenario.access_denied); reflexivity.
Defined.

(** ** C6 *)

Lemma init_is_local_file : forall (U : UrlLib) target callback data,
  _is_local_file (__init__ target callback data)
  = String.eqb (scheme (urlparse target)) ""
    || String.eqb (scheme (urlparse target)) "file".
Proof.
  intros. cbn. unfold truthy_str. now rewrite negb_involutive.
Qed.

Lemma run_nonlocal_calls : forall w self c,
  _is_local_file self = false ->
  filter (fun e => is_remote_call e || is_OsOpen e) (events (run w self c))
  = [OpenURI "" (_url self) [] (portal_OpenURI w "" (_url self) [])].
Proof.
  intros w self c Hlocal.
  run_cases self; try congruence; reflexivity.
Qed.

Lemma run_local_first_call : forall w self c fd,
  _is_local_file self = true ->
  os_open w (_path self) open_flags = Opened fd ->
  exists rest,
    remote_calls (events (run w self c))
    = OpenFile "" 0 [] [fd] (portal_OpenFile w "" 0 [] [fd]) :: rest.
Proof.
  intros w self c fd Hlocal Hopen.
  unfold_prog. rewrite Hlocal, Hopen.
  cbn -[String.append Z.lor]. repeat world_case.
  all: eexists; reflexivity.
Qed.

(** C6, as stated, fails, because the launcher works on the parse of the
    target and not on the target string.  The local path [dropbox_1] exists,
    yet the file-handle method is never issued: the path that is opened is
    cut at the [#], it is not found, and [run] raises.  And for the target
    [HTTP://example.com/page], which is not local, the URI method gets
    [http://example.com/page], which is not the string of the target. *)
Lemma existing_path_with_fragment_is_not_opened :
  os_open Scenario.world_of_dropbox_1 Scenario.dropbox_1 open_flags
  = Opened 3
  /\ _is_local_file (Scenario.launcher Scenario.dropbox_1) = true
  /\ filter (fun e => is_remote_call e || is_OsOpen e)
       (events (run Scenario.world_of_dropbox_1
                  (Scenario.launcher Scenario.dropbox_1) new_connection))
     = [OsOpen "/home/user/Dropbox " open_flags (NotFound Scenario.ENOENT)]
  /\ value (run Scenario.world_of_dropbox_1
              (Scenario.launcher Scenario.dropbox_1) new_connection)
     = Raise (FileNotFoundError Scenario.ENOENT)
  /\ _is_local_file (Scenario.launcher "HTTP://example.com/page") = false
  /\ remote_calls
       (events (run Scenario.world_of_dropbox_1
                  (Scenario.launcher "HTTP://example.com/page")
                  new_connection))
     = [OpenURI "" "http://example.com/page" []
          (Returned (Some Scenario.request_42))]
  /\ "http://example.com/page" <> "HTTP://example.com/page".
Proof.
  vm_compute. repeat split. discriminate.
Qed.

(** C6, amended: for a target whose scheme, as [urlparse] gives it, is
    neither empty nor [file], the only thing [run] asks of the file system
    and of the portal is one OpenURI call, on the URL that [geturl] rebuilds
    from the parse of the target (not a [file://] rewrite): no path is
    opened and OpenFile is not called.  For a local target (empty or [file]
    scheme) whose path, as [urlparse] gives it, can be opened, the first
    remote call is OpenFile, with the descriptor just opened. *)
Theorem run_method_by_target : forall (U : UrlLib) w target callback data c,
  (scheme (urlparse target) <> "" ->
   scheme (urlparse target) <> "file" ->
   filter (fun e => is_remote_call e || is_OsOpen e)
     (events (run w (__init__ target callback data) c))
   = [OpenURI "" (geturl (urlparse target)) []
        (portal_OpenURI w "" (geturl (urlparse target)) [])])
  /\ (forall fd,
        scheme (urlparse target) = "" \/ scheme (urlparse target) = "file" ->
        os_open w (path (urlparse target)) open_flags = Opened fd ->
        exists rest,
          remote_calls (events (run w (__init__ target callback data) c))
          = OpenFile "" 0 [] [fd] (portal_OpenFile w "" 0 [] [fd]) :: rest).
Proof.
  intros U w target callback data c.
  pose proof (init_is_local_file U target callback data) as Hinit.
  split.
  - intros Hne Hnf.
    apply String.eqb_neq in Hne, Hnf. rewrite Hne, Hnf in Hinit.
    exact (run_nonlocal_calls w _ c Hinit).
  - intros fd Hlocal Hopen.
    apply run_local_first_call; [| exact Hopen].
    rewrite Hinit. destruct Hlocal as [-> | ->]; reflexivity.
Qed.

Lemma run_method_by_target_witness :
  filter (fun e => is_remote_call e || is_OsOpen e)
    (events (run (Scenario.world (Returned Scenario.request_42)
                    (Returned (Some Scenario.request_42)))
               (Scenario.launcher "https://example.com/page") new_connection))
  = [OpenURI "" "https://example.com/page" []
       (Returned (Some Scenario.request_42))]
  /\ exists rest,
       remote_calls
         (events (run (Scenario.world (Returned Scenario.request_42)
                         (Returned (Some Scenario.request_42)))
                    (Scenario.launcher Scenario.report) new_connection))
       = OpenFile "" 0 [] [3%Z] (Returned Scenario.request_42) :: rest.
Proof.
  split.
  - apply (run_method_by_target SimpleUrl.urllib
             (Scenario.world (Returned Scenario.request_42)
                (Returned (Some Scenario.request_42)))
             "https://example.com/page" (Some Scenario.done_callback)
             Scenario.mainloop new_connection); discriminate.
  - apply (proj2 (run_method_by_target SimpleUrl.urllib
                    (Scenario.world (Returned Scenario.request_42)
                       (Returned (Some Scenario.request_42)))
                    Scenario.report (Some Scenario.done_callback)
                    Scenario.mainloop new_connection) 3%Z);
      [left; reflexivity | reflexivity].
Defined.

(** ** C10 *)

(** C10: whatever the target, if the OpenURI call of [run] fails with a
    remote error, be it UNKNOWN_METHOD or any other, [run] raises that
    error: the failed call is the last thing [run] does, it is its only
    OpenURI call, nothing is subscribed, nothing is called back and the
    connection is left as it was. *)
Theorem run_uri_method_failure : forall w self c parent uri options g,
  In (OpenURI parent uri options (Failed g)) (events (run w self c)) ->
  value (run w self c) = Raise (GLib_GError g)
  /\ last_opt (events (run w self c))
     = Some (OpenURI parent uri options (Failed g))
  /\ count is_OpenURI (events (run w self c)) = 1
  /\ count is_Subscribed (events (run w self c)) = 0
  /\ callbacks (events (run w self c)) = []
  /\ final (run w self c) = c.
Proof.
  intros w self c parent uri options g Hin. revert Hin.
  run_cases self; intro Hin; in_cases Hin.
  all: injection Hin as <- <- <- <-.
  all: repeat split.
Qed.

Lemma run_uri_method_failure_witness :
  value (run (Scenario.world (Failed Scenario.unknown_method)
                (Failed Scenario.unknown_method))
           (Scenario.launcher Scenario.report) new_connection)
  = Raise (GLib_GError Scenario.unknown_method)
  /\ last_opt
       (events (run (Scenario.world (Failed Scenario.unknown_method)
                       (Failed Scenario.unknown_method))
                  (Scenario.launcher Scenario.report) new_connection))
     = Some (OpenURI "" "file:///home/user/Documents/report.pdf" []
               (Failed Scenario.unknown_method))
  /\ count is_OpenURI
       (events (run (Scenario.world (Failed Scenario.unknown_method)
                       (Failed Scenario.unknown_method))
                  (Scenario.launcher Scenario.report) new_connection))
     = 1
  /\ count is_Subscribed
       (events (run (Scenario.world (Failed Scenario.unknown_method)
                       (Failed Scenario.unknown_method))
                  (Scenario.launcher Scenario.report) new_connection))
     = 0
  /\ callbacks
       (events (run (Scenario.world (Failed Scenario.unknown_method)
                       (Failed Scenario.unknown_method))
                  (Scenario.launcher Scenario.report) new_connection))
     = []
  /\ final (run (Scenario.world (Failed Scenario.unknown_method)
                   (Failed Scenario.unknown_method))
              (Scenario.launcher Scenario.report) new_connection)
     = new_connection.
Proof.
  apply (run_uri_method_failure
           (Scenario.world (Failed Scenario.unknown_method)
              (Failed Scenario.unknown_method))
           (Scenario.launcher Scenario.report) new_connection
           "" "file:///home/user/Documents/report.pdf" []
           Scenario.unknown_method).
  vm_compute. repeat (first [left; reflexivity | right]).
Defined.

(** ** C1 *)

(** C1, as stated, fails: the subscription is not cancelled by the first
    delivery.  [report] is opened with the handle [request_42]; the first
    Response for that handle leaves the subscription registered, and two
    Responses call [done_callback] twice for the one [run]. *)
Lemma second_response_calls_back_again :
  In (OpenFile "" 0 [] [3%Z] (Returned Scenario.request_42))
    (events Scenario.open_report)
  /\ subscriptions
       (final (deliver (Response Scenario.request_42 0 [])
                 (final Scenario.open_report)))
     = subscriptions (final Scenario.open_report)
  /\ subscriptions (final Scenario.open_report) <> []
  /\ callbacks
       (events (deliver_all
                  [Response Scenario.request_42 0 [];
                   Response Scenario.request_42 0 []]
                  (final Scenario.open_report)))
     = [Callback Scenario.done_callback Scenario.mainloop;
        Callback Scenario.done_callback Scenario.mainloop].
Proof.
  vm_compute. repeat split; try discriminate.
  repeat (first [left; reflexivity | right]).
Qed.

(** C1, amended: when a remote call of [run] returns a non-empty handle,
    [run] returns normally without calling back, and registers one
    subscription, for the Response signal of that exact handle; the
    callback (when the launcher has one) is then called once for each
    Response delivered for that handle, and by nothing else; no delivery
    cancels the subscription. *)
Theorem run_handle_calls_back_per_response : forall w self c h sgs,
  subscriptions c = [] ->
  (exists e, In e (events (run w self c))
             /\ returned_handle e = Some (Some h)) ->
  truthy_str h = true ->
  value (run w self c) = Ok tt
  /\ callbacks (events (run w self c)) = []
  /\ subscriptions (final (run w self c))
     = [(next_id c, response_subscription self (Some h))]
  /\ (forall h' response_code results,
        subscription_matches (response_subscription self (Some h))
          (Response h' response_code results) = String.eqb h h')
  /\ final (deliver_all sgs (final (run w self c))) = final (run w self c)
  /\ callbacks (events (deliver_all sgs (final (run w self c))))
     = match _callback self with
       | Some f =>
           repeat (Callback f (_data self))
             (List.length
                (filter
                   (subscription_matches
                      (response_subscription self (Some h))) sgs))
       | None => []
       end.
Proof.
  intros w self c h sgs Hc Hret Hh. revert Hret.
  run_cases self; intros [call [Hin Hret]]; in_cases Hin; subst call;
    cbn in Hret; try discriminate Hret.
  all: injection Hret as ->; try congruence.
  all: rewrite Hc; cbn [app].
  all: match goal with
       | |- context [deliver_all ?l ?c1] =>
           match c1 with
           | {| subscriptions := [(?id, ?s)]; next_id := ?n |} =>
               destruct (deliver_all_one_subscription id s n l)
                 as [ev [Hd Hcb]]
           end
       end.
  all: rewrite Hd; cbn [final events];
       rewrite Hcb, callback_events_count.
  all: repeat split.
Qed.

Lemma run_handle_calls_back_per_response_witness :
  value Scenario.open_report = Ok tt
  /\ callbacks (events Scenario.open_report) = []
  /\ subscriptions (final Scenario.open_report)
     = [(1, response_subscription (Scenario.launcher Scenario.report)
              (Some Scenario.request_42))]
  /\ (forall h' response_code results,
        subscription_matches
          (response_subscription (Scenario.launcher Scenario.report)
             (Some Scenario.request_42))
          (Response h' response_code results)
        = String.eqb Scenario.request_42 h')
  /\ final (deliver_all
              [Response Scenario.request_42 0 []; Response "/other" 0 []]
              (final Scenario.open_report))
     = final Scenario.open_report
  /\ callbacks
       (events (deliver_all
                  [Response Scenario.request_42 0 []; Response "/other" 0 []]
                  (final Scenario.open_report)))
     = [Callback Scenario.done_callback Scenario.mainloop].
Proof.
  apply (run_handle_calls_back_per_response
           (Scenario.world (Returned Scenario.request_42) (Returned None))
           (Scenario.launcher Scenario.report) new_connection
           Scenario.request_42
           [Response Scenario.request_42 0 []; Response "/other" 0 []]).
  - reflexivity.
  - exists (OpenFile "" 0 [] [3%Z] (Returned Scenario.request_42)).
    split; [| reflexivity].
    vm_compute. repeat (first [left; reflexivity | right]).
  - reflexivity.
Defined.

(** ** C2 *)

(** C2, as stated, fails: the launcher on [report] is local, its OpenFile
    call is made and does not fail, it returns an empty handle, and the
    OpenURI method is invoked all the same. *)
Lemma empty_file_handle_invokes_uri_method :
  _is_local_file (Scenario.launcher Scenario.report) = true
  /\ remote_calls (events Scenario.open_report_empty_handle)
     = [OpenFile "" 0 [] [3%Z] (Returned "");
        OpenURI "" "file:///home/user/Documents/report.pdf" []
          (Returned (Some Scenario.request_42))]
  /\ (forall e, In e (events Scenario.open_report_empty_handle) ->
        is_OpenFile e = true -> call_error e = None).
Proof.
  vm_compute. repeat split.
  intros e H.
  repeat (destruct H as [<- | H]; [intro; try reflexivity; discriminate |]).
  contradiction.
Qed.

(** C2, amended: [run] invokes the OpenURI method if and only if the target
    is not local, or its OpenFile call failed with UNKNOWN_METHOD, or its
    OpenFile call returned an empty handle; and it invokes it at most
    once. *)
Theorem run_uri_method_iff : forall w self c,
  ((exists e, In e (events (run w self c)) /\ is_OpenURI e = true)
   <->
   (_is_local_file self = false
    \/ (exists e g, In e (events (run w self c))
                    /\ is_OpenFile e = true
                    /\ call_error e = Some g
                    /\ matches g dbus_error_quark DBusError_UNKNOWN_METHOD
                       = true)
    \/ (exists e, In e (events (run w self c))
                  /\ is_OpenFile e = true
                  /\ returned_handle e = Some (Some ""))))
  /\ count is_OpenURI (events (run w self c)) <= 1.
Proof.
  intros w self c.
  run_cases self.
  all: split; [| count_goals].
  all: split.
  (* left to right: name the disjunct of the path taken *)
  all: try (intros _; left; reflexivity).
  all: try (intros [call [Hin Hcall]]; in_cases Hin; subst call;
            discriminate Hcall).
  all: try (intros _; right; left; do 2 eexists;
            split; [cbn; do 3 right; left; reflexivity |];
            repeat split; assumption).
  all: try (intros _; right; right; eexists;
            split; [cbn; do 3 right; left; reflexivity |];
            repeat split;
            match goal with
            | H : truthy_str ?s = false |- _ =>
                unfold truthy_str in H; apply negb_false_iff in H;
                apply String.eqb_eq in H; subst s; reflexivity
            end).
  (* right to left: the OpenURI call is in the trace, or the disjunct is
     not the path taken *)
  all: try (intros _; apply existsb_exists; reflexivity).
  all: intros [Hl | [[call [g [Hin [Hf [He Hm]]]]] | [call [Hin [Hf Hr]]]]];
       try discriminate Hl;
       in_cases Hin; subst call; cbn in *; try discriminate;
       try (injection He as <-; congruence);
       try (injection Hr as ->; discriminate).
Qed.

(** ** C3 *)

(** C3, as stated, fails: in this run the OpenFile call returns an empty
    handle, yet [run] goes on to OpenURI, subscribes to the handle that one
    returns, and a Response for it calls [done_callback]. *)
Lemma empty_file_handle_still_subscribes :
  In (OpenFile "" 0 [] [3%Z] (Returned ""))
    (events Scenario.open_report_empty_handle)
  /\ count is_Subscribed (events Scenario.open_report_empty_handle) = 1
  /\ subscriptions (final Scenario.open_report_empty_handle)
     = [(1, response_subscription (Scenario.launcher Scenario.report)
              (Some Scenario.request_42))]
  /\ callbacks
       (events (deliver (Response Scenario.request_42 0 [])
                  (final Scenario.open_report_empty_handle)))
     = [Callback Scenario.done_callback Scenario.mainloop].
Proof.
  vm_compute. repeat split.
  repeat (first [left; reflexivity | right]).
Qed.

(** C3, amended: when the last remote call that [run] issues returns an
    empty or absent handle, [run] returns normally after logging the
    warning, without subscribing: the connection is left as it was, nothing
    is called back during [run], and on a connection without other
    subscriptions no later delivery calls anything back. *)
Theorem run_no_handle : forall w self c e,
  last_remote_call (events (run w self c)) = Some e ->
  returned_handle e = Some None \/ returned_handle e = Some (Some "") ->
  value (run w self c) = Ok tt
  /\ last_opt (events (run w self c))
     = Some (Log WARNING "Could not get a handle from the OpenURI portal!")
  /\ count is_Subscribed (events (run w self c)) = 0
  /\ callbacks (events (run w self c)) = []
  /\ final (run w self c) = c
  /\ (subscriptions c = [] ->
      forall sgs,
        callbacks (events (deliver_all sgs (final (run w self c)))) = []).
Proof.
  intros w self c call Hlast Hret. revert Hlast.
  run_cases self; intro Hlast; cbn in Hlast; try discriminate Hlast.
  all: injection Hlast as <-; cbn in Hret.
  all: destruct Hret as [Hret | Hret]; try discriminate Hret.
  all: try (injection Hret as ->; discriminate).
  all: repeat split.
  all: intros Hc sgs; rewrite (deliver_no_subscription sgs c Hc); reflexivity.
Qed.

Lemma run_no_handle_witness :
  value (run (Scenario.world (Failed Scenario.unknown_method) (Returned None))
           (Scenario.launcher Scenario.report) new_connection)
  = Ok tt
  /\ last_opt
       (events (run (Scenario.world (Failed Scenario.unknown_method)
                       (Returned None))
                  (Scenario.launcher Scenario.report) new_connection))
     = Some (Log WARNING "Could not get a handle from the OpenURI portal!")
  /\ count is_Subscribed
       (events (run (Scenario.world (Failed Scenario.unknown_method)
                       (Returned None))
                  (Scenario.launcher Scenario.report) new_connection))
     = 0
  /\ callbacks
       (events (run (Scenario.world (Failed Scenario.unknown_method)
                       (Returned None))
                  (Scenario.launcher Scenario.report) new_connection))
     = []
  /\ final (run (Scenario.world (Failed Scenario.unknown_method)
                   (Returned None))
              (Scenario.launcher Scenario.report) new_connection)
     = new_connection
  /\ (subscriptions new_connection = [] ->
      forall sgs,
        callbacks
          (events
             (deliver_all sgs
                (final (run (Scenario.world (Failed Scenario.unknown_method)
                               (Returned None))
                          (Scenario.launcher Scenario.report)
                          new_connection))))
        = []).
Proof.
  apply (run_no_handle
           (Scenario.world (Failed Scenario.unknown_method) (Returned None))
           (Scenario.launcher Scenario.report) new_connection
           (OpenURI "" "file:///home/user/Documents/report.pdf" []
              (Returned None))).
  - reflexivity.
  - left; reflexivity.
Defined.

(** * Further properties of the portal launcher *)

(* [exists e, In e l /\ P e] for a list that is written out *)
Ltac find_event l :=
  match l with
  | ?e :: ?rest =>
      first [ exists e; split;
              [ cbn; repeat (first [left; reflexivity | right])
              | reflexivity ]
            | find_event rest ]
  end.

(** X1: whatever the world answers, [run] itself never calls the callback
    and never cancels a subscription: the subscriptions the connection had
    are kept, in order, followed by at most one new one. *)
Theorem run_never_calls_back_nor_unsubscribes : forall w self c,
  callbacks (events (run w self c)) = []
  /\ count is_Unsubscribed (events (run w self c)) = 0
  /\ exists new,
       subscriptions (final (run w self c)) = (subscriptions c ++ new)%list
       /\ List.length new <= 1
       /\ next_id c <= next_id (final (run w self c)).
Proof.
  intros w self c.
  run_cases self.
  all: split; [reflexivity | split; [reflexivity |]].
  all: first [ exists []; rewrite app_nil_r; cbn; solve [auto]
             | eexists; split; [reflexivity | cbn; solve [auto]] ].
Qed.

(** X2: when [os.open] fails on a local target with an OSError other than
    FileNotFoundError (a permission error, say), [run] raises that error
    without logging an error line and without any remote call: the trace is
    the two information lines and the failed open. *)
Theorem run_other_os_error : forall w self c strerror,
  _is_local_file self = true ->
  os_open w (_path self) open_flags = OpenFailed strerror ->
  value (run w self c) = Raise (OSError strerror)
  /\ events (run w self c)
     = [Log INFO
          "Detected file/URI pointing to a local path. Using OpenFile method...";
        Log INFO ("Opening path at " ++ _path self
                  ++ " (method: OpenURI.OpenFile)...");
        OsOpen (_path self) open_flags (OpenFailed strerror)]
  /\ final (run w self c) = c.
Proof.
  intros w self c strerror Hlocal Hopen.
  run_cases self; try congruence.
  injection Hopen as ->. repeat split.
Qed.

Lemma run_other_os_error_witness :
  value (run {| os_open := fun _ _ => OpenFailed "Permission denied";
                portal_OpenFile := fun _ _ _ _ => Returned Scenario.request_42;
                portal_OpenURI := fun _ _ _ => Returned None |}
           (Scenario.launcher Scenario.report) new_connection)
  = Raise (OSError "Permission denied")
  /\ events (run {| os_open := fun _ _ => OpenFailed "Permission denied";
                    portal_OpenFile :=
                      fun _ _ _ _ => Returned Scenario.request_42;
                    portal_OpenURI := fun _ _ _ => Returned None |}
               (Scenario.launcher Scenario.report) new_connection)
     = [Log INFO
          "Detected file/URI pointing to a local path. Using OpenFile method...";
        Log INFO ("Opening path at "
                  ++ _path (Scenario.launcher Scenario.report)
                  ++ " (method: OpenURI.OpenFile)...");
        OsOpen (_path (Scenario.launcher Scenario.report)) open_flags
          (OpenFailed "Permission denied")]
  /\ final (run {| os_open := fun _ _ => OpenFailed "Permission denied";
                   portal_OpenFile :=
                     fun _ _ _ _ => Returned Scenario.request_42;
                   portal_OpenURI := fun _ _ _ => Returned None |}
              (Scenario.launcher Scenario.report) new_connection)
     = new_connection.
Proof.
  apply (run_other_os_error
           {| os_open := fun _ _ => OpenFailed "Permission denied";
              portal_OpenFile := fun _ _ _ _ => Returned Scenario.request_42;
              portal_OpenURI := fun _ _ _ => Returned None |}
           (Scenario.launcher Scenario.report) new_connection
           "Permission denied"); reflexivity.
Defined.

(** X3: [run] ends in one of three ways, which exclude one another.  It
    raises an error that
    the world gave it (a failed [os.open] or a failed remote call), having
    subscribed to nothing; or it returns after subscribing, as its last
    step, to the non-empty handle its last remote call returned; or it
    returns after the warning that no handle was obtained, having
    subscribed to nothing. *)
Theorem run_ends_in_one_of_three_ways : forall w self c,
  (exists x, value (run w self c) = Raise x
     /\ (exists e, In e (events (run w self c)) /\ world_error e = Some x)
     /\ count is_Subscribed (events (run w self c)) = 0
     /\ final (run w self c) = c)
  \/ (exists call h,
        value (run w self c) = Ok tt
        /\ last_remote_call (events (run w self c)) = Some call
        /\ returned_handle call = Some (Some h)
        /\ truthy_str h = true
        /\ last_opt (events (run w self c))
           = Some (Subscribed (next_id c)
                     (response_subscription self (Some h)))
        /\ count is_Subscribed (events (run w self c)) = 1
        /\ final (run w self c)
           = {| subscriptions :=
                  (subscriptions c
                   ++ [(next_id c, response_subscription self (Some h))])%list;
                next_id := S (next_id c) |})
  \/ (value (run w self c) = Ok tt
      /\ last_opt (events (run w self c))
         = Some (Log WARNING "Could not get a handle from the OpenURI portal!")
      /\ count is_Subscribed (events (run w self c)) = 0
      /\ final (run w self c) = c).
Proof.
  intros w self c.
  run_cases self.
  all: first
         [ solve [right; right; repeat split]
         | solve [right; left; do 2 eexists; repeat split; eassumption]
         | left; eexists; split; [reflexivity |];
           split; [| split; reflexivity];
           match goal with
           | |- exists e, In e ?l /\ _ => find_event l
           end ].
Qed.

(** X4: what [run] asks of the world.  It opens nothing but the path of
    the launcher, with the flags O_PATH | O_CLOEXEC (2621440), and only
    for a local target; every OpenFile call has an empty parent window,
    descriptor index 0, no options and, as its only descriptor, the one
    that open returned; every OpenURI call has an empty parent window, no
    options, and the URL of the launcher when it is not local, [file://]
    followed by its path when it is. *)
Theorem run_arguments : forall w self c e,
  In e (events (run w self c)) ->
  match e with
  | OsOpen p flags r =>
      _is_local_file self = true /\ p = _path self /\ flags = 2621440%Z
      /\ r = os_open w p flags
  | OpenFile parent idx options fds r =>
      _is_local_file self = true /\ parent = "" /\ idx = 0%Z /\ options = []
      /\ (exists fd, fds = [fd]
                     /\ os_open w (_path self) 2621440 = Opened fd)
      /\ r = portal_OpenFile w parent idx options fds
  | OpenURI parent uri options r =>
      parent = "" /\ options = []
      /\ uri = (if _is_local_file self then "file://" ++ _path self
                else _url self)
      /\ r = portal_OpenURI w parent uri options
  | _ => True
  end.
Proof.
  intros w self c e Hin. revert Hin.
  run_cases self; intro Hin; in_cases Hin; subst e; cbn;
    repeat split; auto; try congruence.
  all: eexists; split; [reflexivity |].
  all: change (Z.lor O_PATH O_CLOEXEC) with 2621440%Z in *; congruence.
Qed.

Lemma run_arguments_witness :
  _is_local_file (Scenario.launcher Scenario.report) = true
  /\ "" = ""
  /\ 0%Z = 0%Z
  /\ @nil (string * string) = []
  /\ (exists fd, [3%Z] = [fd]
                 /\ os_open (Scenario.world (Returned Scenario.request_42)
                               (Returned None))
                      (_path (Scenario.launcher Scenario.report)) 2621440
                    = Opened fd)
  /\ Returned Scenario.request_42
     = portal_OpenFile (Scenario.world (Returned Scenario.request_42)
                          (Returned None)) "" 0 [] [3%Z].
Proof.
  apply (run_arguments
           (Scenario.world (Returned Scenario.request_42) (Returned None))
           (Scenario.launcher Scenario.report) new_connection
           (OpenFile "" 0 [] [3%Z] (Returned Scenario.request_42))).
  vm_compute. repeat (first [left; reflexivity | right]).
Defined.

(** X5: a local launcher never uses its cached URL, and a launcher that is
    not local never uses its cached path: what [run] does, and what it
    leaves on the connection, is the same whatever that field holds.  On
    the OpenURI fallback of a [file:] target the portal therefore gets
    [file://] and the path alone. *)
Theorem run_unused_field : forall w self c other,
  (_is_local_file self = true ->
   run w (with_url self other) c = run w self c)
  /\ (_is_local_file self = false ->
      run w (with_path self other) c = run w self c).
Proof.
  intros w self c other. split; intro Hlocal.
  - unfold run, _run_open_file_method, _run_open_uri_method,
      response_subscription, with_url.
    cbn [_is_local_file _path _url _callback _data].
    rewrite Hlocal. reflexivity.
  - unfold run, _run_open_file_method, _run_open_uri_method,
      response_subscription, with_path.
    cbn [_is_local_file _path _url _callback _data].
    rewrite Hlocal. reflexivity.
Qed.

(** * xdg-open.py *)

Lemma run_calls_nothing_back : forall w self c,
  callbacks (events (run w self c)) = [].
Proof. intros w self c. run_cases self; reflexivity. Qed.

Lemma quits_only_callbacks : forall loop ev,
  existsb (XdgOpen.quits loop) ev
  = existsb (XdgOpen.quits loop) (callbacks ev).
Proof.
  intros loop ev. induction ev as [|e ev IH]; [reflexivity |].
  destruct e; cbn -[Nat.eqb]; try exact IH. now rewrite IH.
Qed.

Lemma idle_source_result : forall (U : UrlLib) w target loop c,
  events (try_except (XdgOpen.open_url_on_idle w target loop)
            (fun _ => ret tt) c)
  = events (XdgOpen.open_url_on_idle w target loop c)
  /\ final (try_except (XdgOpen.open_url_on_idle w target loop)
              (fun _ => ret tt) c)
     = final (XdgOpen.open_url_on_idle w target loop c).
Proof.
  intros. unfold try_except.
  destruct (XdgOpen.open_url_on_idle w target loop c) as [ev c1 [[]|x]];
    cbn; rewrite ?app_nil_r; split; reflexivity.
Qed.

Lemma mainloop_run_no_subscription : forall loop pending c,
  subscriptions c = [] ->
  XdgOpen.mainloop_run loop pending c = ([], false).
Proof.
  intros loop pending c Hc. induction pending as [|batch rest IH];
    [reflexivity |].
  cbn [XdgOpen.mainloop_run]. rewrite (deliver_no_subscription batch c Hc).
  cbn. rewrite IH. reflexivity.
Qed.

(** X6: when the launcher of xdg-open ends without a subscription, because
    [run] raised (a missing file, a portal error) or because the portal
    returned no handle, the main loop never returns, whatever signals
    arrive: the program calls nothing back and has no exit status. *)
Theorem xdg_open_without_handle_never_exits :
  forall (U : UrlLib) w target pending,
  (exists x,
     value (run w (__init__ target (Some XdgOpen.done_callback)
                     XdgOpen.mainloop) new_connection) = Raise x)
  \/ last_opt (events (run w (__init__ target (Some XdgOpen.done_callback)
                                XdgOpen.mainloop) new_connection))
     = Some (Log WARNING "Could not get a handle from the OpenURI portal!") ->
  snd (XdgOpen.main w target pending) = None
  /\ callbacks (fst (XdgOpen.main w target pending)) = [].
Proof.
  intros U w target pending Hend.
  unfold XdgOpen.main.
  destruct (idle_source_result U w target XdgOpen.mainloop new_connection)
    as [Hev Hfin].
  rewrite Hev, Hfin. unfold XdgOpen.open_url_on_idle.
  set (self := __init__ target (Some XdgOpen.done_callback) XdgOpen.mainloop)
    in *.
  rewrite quits_only_callbacks, run_calls_nothing_back. cbn [existsb].
  assert (Hsub : subscriptions (final (run w self new_connection)) = []).
  { revert Hend. clearbody self. clear.
    run_cases self; intros [[x Hx] | Hlast]; try discriminate;
      reflexivity. }
  rewrite (mainloop_run_no_subscription _ _ _ Hsub). cbn [fst snd].
  rewrite app_nil_r. split; [reflexivity | apply run_calls_nothing_back].
Qed.

Lemma xdg_open_without_handle_never_exits_witness :
  snd (XdgOpen.main (U := SimpleUrl.urllib)
         (Scenario.world (Returned Scenario.request_42)
            (Returned (Some Scenario.request_42)))
         "/missing/file.txt" [[Response Scenario.request_42 0 []]])
  = None
  /\ callbacks
       (fst (XdgOpen.main (U := SimpleUrl.urllib)
               (Scenario.world (Returned Scenario.request_42)
                  (Returned (Some Scenario.request_42)))
               "/missing/file.txt" [[Response Scenario.request_42 0 []]]))
     = [].
Proof.
  apply (xdg_open_without_handle_never_exits SimpleUrl.urllib
           (Scenario.world (Returned Scenario.request_42)
              (Returned (Some Scenario.request_42)))
           "/missing/file.txt" [[Response Scenario.request_42 0 []]]).
  left. eexists. reflexivity.
Defined.

Lemma quits_repeat : forall n,
  existsb (XdgOpen.quits XdgOpen.mainloop)
    (repeat (Callback XdgOpen.done_callback XdgOpen.mainloop) n)
  = negb (Nat.eqb n 0).
Proof. intros [|n]; reflexivity. Qed.

Lemma filter_nil_iff : forall (A : Type) (f : A -> bool) l,
  filter f l = [] <-> forall x, In x l -> f x = false.
Proof.
  intros A f l. induction l as [|a l IH]; cbn.
  - split; [intros _ x [] | reflexivity].
  - destruct (f a) eqn:Ha; split.
    + discriminate.
    + intro H. specialize (H a (or_introl eq_refl)). congruence.
    + intros H x [<- | Hx]; [exact Ha | now apply IH].
    + intro H. apply IH. intros x Hx. apply H. now right.
Qed.

Lemma mainloop_run_until_response : forall id s n before batch after,
  sub_callback s = Some XdgOpen.done_callback ->
  sub_data s = XdgOpen.mainloop ->
  (forall b, In b before -> filter (subscription_matches s) b = []) ->
  filter (subscription_matches s) batch <> [] ->
  exists ev,
    XdgOpen.mainloop_run XdgOpen.mainloop (before ++ batch :: after)%list
      {| subscriptions := [(id, s)]; next_id := n |} = (ev, true)
    /\ XdgOpen.mainloop_run XdgOpen.mainloop (before ++ [batch])%list
         {| subscriptions := [(id, s)]; next_id := n |} = (ev, true)
    /\ callbacks ev
       = repeat (Callback XdgOpen.done_callback XdgOpen.mainloop)
           (List.length (filter (subscription_matches s) batch)).
Proof.
  intros id s n before batch after Hcb Hdata Hbefore Hbatch.
  induction before as [|b before IH]; cbn [app XdgOpen.mainloop_run].
  - destruct (deliver_all_one_subscription id s n batch) as [ev [Hd Hc]].
    rewrite Hd. cbn [events final].
    rewrite quits_only_callbacks, Hc, callback_events_count, Hcb, Hdata.
    rewrite quits_repeat.
    destruct (filter (subscription_matches s) batch) as [|x l] eqn:Hf;
      [congruence |].
    cbn [List.length Nat.eqb negb]. exists ev. repeat split.
    rewrite Hc, callback_events_count, Hcb, Hdata, Hf. reflexivity.
  - destruct (deliver_all_one_subscription id s n b) as [ev [Hd Hc]].
    rewrite Hd. cbn [events final].
    rewrite quits_only_callbacks, Hc, callback_events_count, Hcb, Hdata.
    rewrite (Hbefore b (or_introl eq_refl)). cbn [List.length repeat existsb].
    destruct IH as [ev' [H1 [H2 H3]]].
    { intros b' Hb'. apply Hbefore. now right. }
    rewrite H1, H2. exists (ev ++ ev')%list. repeat split.
    unfold callbacks in *.
    rewrite filter_app, H3, Hc, callback_events_count, Hcb, Hdata,
      (Hbefore b (or_introl eq_refl)).
    reflexivity.
Qed.

(** X7: when the launcher of xdg-open has subscribed to the request [h],
    the program exits with status 0 at the first iteration of the main loop
    that delivers a Response for [h]: [done_callback] is called once for
    each such Response of that iteration, never before, and what arrives
    afterwards is not dispatched. *)
Theorem xdg_open_exits_on_response :
  forall (U : UrlLib) w target h before batch after,
  subscriptions
    (final (run w (__init__ target (Some XdgOpen.done_callback)
                     XdgOpen.mainloop) new_connection))
  = [(1, response_subscription
           (__init__ target (Some XdgOpen.done_callback) XdgOpen.mainloop)
           (Some h))] ->
  (forall b sg, In b before -> In sg b ->
                String.eqb h (sig_object_path sg) = false) ->
  (exists code results, In (Response h code results) batch) ->
  snd (XdgOpen.main w target (before ++ batch :: after)%list) = Some 0%Z
  /\ XdgOpen.main w target (before ++ batch :: after)%list
     = XdgOpen.main w target (before ++ [batch])%list
  /\ callbacks (fst (XdgOpen.main w target (before ++ batch :: after)%list))
     = repeat (Callback XdgOpen.done_callback XdgOpen.mainloop)
         (List.length
            (filter
               (subscription_matches
                  (response_subscription
                     (__init__ target (Some XdgOpen.done_callback)
                        XdgOpen.mainloop)
                     (Some h)))
               batch))
  /\ 1 <= List.length
            (filter
               (subscription_matches
                  (response_subscription
                     (__init__ target (Some XdgOpen.done_callback)
                        XdgOpen.mainloop)
                     (Some h)))
               batch).
Proof.
  intros U w target h before batch after Hsub Hbefore [code [results Hin]].
  unfold XdgOpen.main.
  destruct (idle_source_result U w target XdgOpen.mainloop new_connection)
    as [Hev Hfin].
  rewrite Hev, Hfin. unfold XdgOpen.open_url_on_idle.
  set (self := __init__ target (Some XdgOpen.done_callback) XdgOpen.mainloop)
    in *.
  set (s := response_subscription self (Some h)) in *.
  rewrite quits_only_callbacks, run_calls_nothing_back. cbn [existsb].
  destruct (final (run w self new_connection)) as [subs n].
  cbn [subscriptions] in Hsub. subst subs.
  assert (Hb : forall b, In b before -> filter (subscription_matches s) b = []).
  { intros b Hb. apply filter_nil_iff. intros sg Hsg.
    unfold subscription_matches, s; cbn [sub_object_path response_subscription].
    rewrite (Hbefore b sg Hb Hsg). apply andb_false_r. }
  assert (Hm : subscription_matches s (Response h code results) = true).
  { unfold s. rewrite response_subscription_matches. apply String.eqb_refl. }
  assert (Hne : filter (subscription_matches s) batch <> []).
  { intro Hf. rewrite filter_nil_iff in Hf.
    specialize (Hf _ Hin). congruence. }
  destruct (mainloop_run_until_response 1 s n before batch after
              eq_refl eq_refl Hb Hne) as [ev [H1 [H2 H3]]].
  rewrite H1, H2. cbn [fst snd]. repeat split.
  - pose proof (run_calls_nothing_back w self new_connection) as Hrun.
    unfold callbacks in *. rewrite filter_app, H3, Hrun. reflexivity.
  - destruct (filter (subscription_matches s) batch);
      [congruence | cbn; lia].
Qed.

Lemma xdg_open_exits_on_response_witness :
  snd (XdgOpen.main (U := SimpleUrl.urllib)
         (Scenario.world (Returned Scenario.request_42) (Returned None))
         Scenario.report
         ([[Response "/other" 0 []]]
          ++ [Response Scenario.request_42 0 []]
             :: [[Response Scenario.request_42 0 []]])%list)
  = Some 0%Z.
Proof.
  apply (xdg_open_exits_on_response SimpleUrl.urllib
           (Scenario.world (Returned Scenario.request_42) (Returned None))
           Scenario.report Scenario.request_42
           [[Response "/other" 0 []]]
           [Response Scenario.request_42 0 []]
           [[Response Scenario.request_42 0 []]]).
  - reflexivity.
  - intros b sg [<- | []] [<- | []]. reflexivity.
  - exists 0%Z, []. left. reflexivity.
Defined.

(** * eos-dropbox-app.py: finding the daemon and the folder *)

Ltac app_unfold :=
  unfold App.get_dropbox_directory, App.get_default_dropbox_directory,
    App.with_open, App.os_path_expanduser, App.os_path_exists,
    App.os_path_isdir, App.glob_glob, App.log, App.act, App.bind,
    App.try_except, App.try_finally, App.of_sum, App.of_error, App.ret,
    App.raise in *.

Ltac app_simpl := cbn -[String.append App.search_path App.py_iter In].

(** X8: [find_dropbox_daemon] returns the first process, in the order
    psutil lists them, whose name is [dropbox], and None exactly when no
    process has that name; a process whose name psutil could not read is
    never a match. *)
Theorem find_dropbox_daemon_is_first_match : forall env,
  (App.find_dropbox_daemon env = None
   <-> forall p, In p (App.process_iter env) ->
                 App.info_name p <> Some "dropbox")
  /\ (forall p, App.find_dropbox_daemon env = Some p ->
        App.info_name p = Some "dropbox"
        /\ exists before rest,
             App.process_iter env = (before ++ p :: rest)%list
             /\ forall q, In q before -> App.info_name q <> Some "dropbox").
Proof.
  intro env.
  unfold App.find_dropbox_daemon, App.get_processes_by_name,
    App.DROPBOX_DAEMON_NAME.
  assert (Hname : forall p, App.name_is "dropbox" p = true
                            <-> App.info_name p = Some "dropbox").
  { intro p. unfold App.name_is. destruct (App.info_name p) as [n|].
    - rewrite String.eqb_eq. split; congruence.
    - split; discriminate. }
  induction (App.process_iter env) as [|a l [IHnone IHsome]].
  - split; [split; [intros _ p [] | reflexivity] | discriminate].
  - cbn [filter]. destruct (App.name_is "dropbox" a) eqn:Ha; cbn beta iota.
    + split.
      * split; [discriminate |].
        intro H. apply Hname in Ha. now specialize (H a (or_introl eq_refl)).
      * intros p Hp. injection Hp as <-.
        split; [now apply Hname |].
        exists [], l. split; [reflexivity | intros q []].
    + assert (Hna : App.info_name a <> Some "dropbox").
      { intro H. apply Hname in H. congruence. }
      split.
      * rewrite IHnone. split.
        -- intros H p [<- | Hp]; [exact Hna | now apply H].
        -- intros H p Hp. apply H. now right.
      * intros p Hp. destruct (IHsome p Hp) as [Hn [before [rest [Hl Hb]]]].
        split; [exact Hn |].
        exists (a :: before), rest. split; [now rewrite Hl |].
        intros q [<- | Hq]; [exact Hna | now apply Hb].
Qed.

(** X9: when the configuration file does not exist,
    [get_dropbox_directory] returns None at once: it opens no file and does
    not fall back to the default folder, which it never looks for. *)
Theorem get_dropbox_directory_without_config : forall env st cfg,
  App.expanduser env App.DROPBOX_CONFIG = Some cfg ->
  App.path_exists env cfg = false ->
  App.value (App.get_dropbox_directory env st) = App.Return None
  /\ App.trace (App.get_dropbox_directory env st)
     = [App.ALog INFO "Looking for Dropbox configuration..." [];
        App.AExists cfg false;
        App.ALog INFO "Dropbox configuration not found" []]
  /\ App.after (App.get_dropbox_directory env st) = st.
Proof.
  intros env st cfg Hcfg Hex.
  app_unfold. rewrite Hcfg. app_simpl. rewrite Hex. app_simpl.
  repeat split.
Qed.

Lemma get_dropbox_directory_without_config_witness :
  App.value
    (App.get_dropbox_directory
       (AppScenario.env [] ["/home/user/Dropbox"] [] []
          (inr AppScenario.two_accounts) [])
       AppScenario.fresh)
  = App.Return None.
Proof.
  apply (get_dropbox_directory_without_config
           (AppScenario.env [] ["/home/user/Dropbox"] [] []
              (inr AppScenario.two_accounts) [])
           AppScenario.fresh AppScenario.config_path); reflexivity.
Defined.

(** ** The loop over the accounts *)

Lemma lookup_in_nodup : forall k v members,
  NoDup (map fst members) -> In (k, v) members ->
  App.lookup k members = Some v.
Proof.
  intros k v members. induction members as [|[k' v'] rest IH];
    intros Hnd Hin; [destruct Hin |].
  cbn in Hnd. apply NoDup_cons_iff in Hnd as [Hnotin Hnd].
  cbn [App.lookup]. destruct Hin as [Heq | Hin].
  - injection Heq as -> ->. now rewrite String.eqb_refl.
  - destruct (String.eqb_spec k k') as [-> | _]; [| now apply IH].
    exfalso. apply Hnotin. apply (in_map fst) in Hin. exact Hin.
Qed.

Lemma lookup_path_found : forall members p,
  App.lookup "path" members = Some p ->
  existsb (fun kv => String.eqb (fst kv) "path") members = true.
Proof.
  induction members as [|[k v] rest IH]; intros p H; [discriminate |].
  cbn [App.lookup] in H. cbn [existsb fst].
  destruct (String.eqb_spec "path" k) as [<- | Hne]; [reflexivity |].
  rewrite (IH p H). apply orb_true_r.
Qed.

Lemma search_path_miss : forall d accounts,
  NoDup (map fst d) -> incl accounts d ->
  forallb (fun kv => App.account_without_path (snd kv)) accounts = true ->
  App.search_path (App.JObj d) (App.keys_of accounts) = inr None.
Proof.
  intros d accounts Hnd. induction accounts as [|[k v] rest IH];
    intros Hincl Hall; [reflexivity |].
  cbn [forallb snd] in Hall. apply andb_prop in Hall as [Hv Hall].
  cbn [App.keys_of map fst App.search_path App.py_getitem].
  rewrite (lookup_in_nodup k v d Hnd (Hincl _ (or_introl eq_refl))).
  destruct v; try discriminate Hv. cbn [App.account_without_path] in Hv.
  cbn [App.contains_path]. apply negb_true_iff in Hv. rewrite Hv.
  apply IH; [| exact Hall].
  intros x Hx. apply Hincl. now right.
Qed.

Lemma search_path_hit : forall d before t o rest p,
  NoDup (map fst d) -> incl (before ++ (t, App.JObj o) :: rest)%list d ->
  forallb (fun kv => App.account_without_path (snd kv)) before = true ->
  App.lookup "path" o = Some p ->
  App.search_path (App.JObj d) (App.keys_of (before ++ (t, App.JObj o) :: rest))
  = inr (Some (p, App.JStr t)).
Proof.
  intros d before t o rest p Hnd. induction before as [|[k v] before IH];
    intros Hincl Hall Hp.
  - cbn [app App.keys_of map fst App.search_path App.py_getitem].
    rewrite (lookup_in_nodup t _ d Hnd (Hincl _ (or_introl eq_refl))).
    cbn [App.contains_path]. rewrite (lookup_path_found o p Hp).
    cbn [App.py_getitem]. rewrite Hp. reflexivity.
  - cbn [forallb snd] in Hall. apply andb_prop in Hall as [Hv Hall].
    cbn [app App.keys_of map fst App.search_path App.py_getitem].
    rewrite (lookup_in_nodup k v d Hnd (Hincl _ (or_introl eq_refl))).
    destruct v; try discriminate Hv. cbn [App.account_without_path] in Hv.
    cbn [App.contains_path]. apply negb_true_iff in Hv. rewrite Hv.
    apply IH; [| exact Hall | exact Hp].
    intros x Hx. apply Hincl. now right.
Qed.

(** ** get_dropbox_directory on a configuration that can be read *)

(* up to the loop over the accounts of a configuration that is a dict *)
Ltac read_config Hcfg Hex Hopen Hread Hjson :=
  app_unfold; rewrite Hcfg; app_simpl; rewrite Hex; app_simpl;
  rewrite Hopen; app_simpl; rewrite Hread; app_simpl;
  rewrite Hjson; app_simpl;
  cbn [App.py_iter];
  match goal with
  | |- context [map (fun kv => App.JStr (fst kv)) ?d] =>
      change (map (fun kv => App.JStr (fst kv)) d) with (App.keys_of d)
  end.

(** X10: the folder of the first account that has one.  When the
    configuration is a dict whose accounts, up to the first one with a
    'path', are dicts, and that path is a non-empty string, the result is
    [expanduser] of that path: accounts after it are not looked at, the
    file is closed, nothing checks that the folder exists and the default
    folder is not looked for. *)
Theorem get_dropbox_directory_first_account :
  forall env st cfg data d before t o rest p dir,
  App.expanduser env App.DROPBOX_CONFIG = Some cfg ->
  App.path_exists env cfg = true ->
  App.open_r env cfg = None ->
  App.read env cfg = inr data ->
  App.json_loads env data = inr (App.JObj d) ->
  NoDup (map fst d) ->
  d = (before ++ (t, App.JObj o) :: rest)%list ->
  forallb (fun kv => App.account_without_path (snd kv)) before = true ->
  App.lookup "path" o = Some (App.JStr p) ->
  truthy_str p = true ->
  App.expanduser env p = Some dir ->
  truthy_str dir = true ->
  App.value (App.get_dropbox_directory env st) = App.Return (Some dir)
  /\ App.trace (App.get_dropbox_directory env st)
     = [App.ALog INFO "Looking for Dropbox configuration..." [];
        App.AExists cfg true;
        App.AOpen cfg None;
        App.ALog INFO "Found Dropbox configuration at {}" [App.JStr cfg];
        App.ARead cfg;
        App.ALog INFO "Found configured Dropbox directory at {} ({} account)"
          [App.JStr dir; App.JStr t];
        App.AClose cfg]
  /\ App.after (App.get_dropbox_directory env st) = st.
Proof.
  intros env st cfg data d before t o rest p dir
    Hcfg Hex Hopen Hread Hjson Hnd Hd Hbefore Hpath Hp Hdir Hne.
  assert (Hhit : App.search_path (App.JObj d) (App.keys_of d)
                 = inr (Some (App.JStr p, App.JStr t))).
  { rewrite Hd at 2. apply search_path_hit; auto.
    rewrite Hd. apply incl_refl. }
  read_config Hcfg Hex Hopen Hread Hjson.
  rewrite Hhit. app_simpl. rewrite Hp. app_simpl.
  rewrite Hdir. app_simpl. rewrite Hne. app_simpl.
  repeat split.
Qed.

Lemma get_dropbox_directory_first_account_witness :
  App.value
    (App.get_dropbox_directory
       (AppScenario.env [AppScenario.config_path] [] [] []
          (inr AppScenario.two_accounts) [])
       AppScenario.fresh)
  = App.Return (Some "/home/user/Dropbox (Personal)").
Proof.
  apply (get_dropbox_directory_first_account
           (AppScenario.env [AppScenario.config_path] [] [] []
              (inr AppScenario.two_accounts) [])
           AppScenario.fresh AppScenario.config_path "{...}"
           [("personal",
             App.JObj [("host", App.JInt 1);
                       ("path", App.JStr "~/Dropbox (Personal)")]);
            ("business", App.JObj [("path", App.JStr "/data/Team")])]
           [] "personal"
           [("host", App.JInt 1); ("path", App.JStr "~/Dropbox (Personal)")]
           [("business", App.JObj [("path", App.JStr "/data/Team")])]
           "~/Dropbox (Personal)" "/home/user/Dropbox (Personal)");
    try reflexivity.
  repeat constructor; cbn; intuition discriminate.
Defined.

(* one step of the case analysis on what the environment answers *)
Ltac env_case :=
  match goal with
  | |- context [match App.expanduser ?e ?p with _ => _ end] =>
      destruct (App.expanduser e p) eqn:?
  | |- context [if App.path_isdir ?e ?p then _ else _] =>
      destruct (App.path_isdir e p) eqn:?
  | |- context [if App.path_exists ?e ?p then _ else _] =>
      destruct (App.path_exists e p) eqn:?
  | |- context [match App.glob ?e ?p with _ => _ end] =>
      destruct (App.glob e p) eqn:?
  | |- context [match App.open_r ?e ?p with _ => _ end] =>
      destruct (App.open_r e p) eqn:?
  | |- context [match App.read ?e ?p with _ => _ end] =>
      destruct (App.read e p) eqn:?
  | |- context [match App.json_loads ?e ?p with _ => _ end] =>
      destruct (App.json_loads e p) eqn:?
  | |- context [truthy_str ?s] =>
      destruct (truthy_str s) eqn:?
  end; app_simpl.

(** X11: when no account of the configuration has a 'path', or the first
    one that has one has an empty or null one, [get_dropbox_directory]
    warns and answers what [get_default_dropbox_directory] answers (or
    raises what it raises); it looks for no folder before that. *)
Theorem get_dropbox_directory_falls_back : forall env st cfg data d,
  App.expanduser env App.DROPBOX_CONFIG = Some cfg ->
  App.path_exists env cfg = true ->
  App.open_r env cfg = None ->
  App.read env cfg = inr data ->
  App.json_loads env data = inr (App.JObj d) ->
  NoDup (map fst d) ->
  forallb (fun kv => App.account_without_path (snd kv)) d = true
  \/ (exists before t o rest v,
        d = (before ++ (t, App.JObj o) :: rest)%list
        /\ forallb (fun kv => App.account_without_path (snd kv)) before = true
        /\ App.lookup "path" o = Some v
        /\ App.py_bool v = false) ->
  App.value (App.get_dropbox_directory env st)
  = App.value (App.get_default_dropbox_directory env st)
  /\ App.after (App.get_dropbox_directory env st) = st
  /\ exists before_default,
       App.trace (App.get_dropbox_directory env st)
       = (before_default
          ++ App.trace (App.get_default_dropbox_directory env st))%list
       /\ filter App.is_directory_query before_default = []
       /\ last_opt before_default
          = Some (App.ALog WARNING
                    "Could not find a valid Dropbox directory in the configuration. Falling back to defaults..."
                    []).
Proof.
  intros env st cfg data d Hcfg Hex Hopen Hread Hjson Hnd Hcase.
  assert (Hhit : exists hit,
             App.search_path (App.JObj d) (App.keys_of d) = inr hit
             /\ App.py_bool (match hit with
                             | Some (v, _) => v
                             | None => App.JNull
                             end) = false).
  { destruct Hcase as [Hall | [before [t [o [rest [v [Hd [Hb [Hl Hv]]]]]]]]].
    - exists None. split; [| reflexivity].
      apply search_path_miss; auto. apply incl_refl.
    - exists (Some (v, App.JStr t)). split; [| exact Hv].
      rewrite Hd at 2. apply search_path_hit; auto.
      rewrite Hd. apply incl_refl. }
  destruct Hhit as [hit [Hhit Hfalse]].
  read_config Hcfg Hex Hopen Hread Hjson.
  rewrite Hhit. app_simpl.
  destruct hit as [[v acc]|]; app_simpl; rewrite ?Hfalse; app_simpl.
  all: repeat env_case.
  all: repeat split.
  all: exists
         [App.ALog INFO "Looking for Dropbox configuration..." [];
          App.AExists cfg true;
          App.AOpen cfg None;
          App.ALog INFO "Found Dropbox configuration at {}" [App.JStr cfg];
          App.ARead cfg;
          App.ALog WARNING
            "Could not find user's configuration in Dropbox's configuration file"
            [];
          App.AClose cfg;
          App.ALog WARNING
            "Could not find a valid Dropbox directory in the configuration. Falling back to defaults..."
            []].
  all: repeat split.
Qed.

Lemma get_dropbox_directory_falls_back_witness :
  App.value
    (App.get_dropbox_directory
       (AppScenario.env [AppScenario.config_path] []
          [] ["/home/user/Dropbox (Endless Team)"]
          (inr (App.JObj [("business", App.JObj [("path", App.JStr "")])]))
          [])
       AppScenario.fresh)
  = App.value
      (App.get_default_dropbox_directory
         (AppScenario.env [AppScenario.config_path] []
            [] ["/home/user/Dropbox (Endless Team)"]
            (inr (App.JObj [("business", App.JObj [("path", App.JStr "")])]))
            [])
         AppScenario.fresh).
Proof.
  apply (get_dropbox_directory_falls_back
           (AppScenario.env [AppScenario.config_path] []
              [] ["/home/user/Dropbox (Endless Team)"]
              (inr (App.JObj [("business", App.JObj [("path", App.JStr "")])]))
              [])
           AppScenario.fresh AppScenario.config_path "{...}"
           [("business", App.JObj [("path", App.JStr "")])]);
    try reflexivity.
  - repeat constructor. intros [].
  - right. exists [], "business", [("path", App.JStr "")], [], (App.JStr "").
    repeat split.
Defined.

(** X12: when the configuration file is not valid JSON,
    [get_dropbox_directory] logs the warning and then fails with
    UnboundLocalError on [json_data]: it does not fall back to the default
    folder, which it never looks for.  The file is closed. *)
Theorem get_dropbox_directory_invalid_json : forall env st cfg data msg,
  App.expanduser env App.DROPBOX_CONFIG = Some cfg ->
  App.path_exists env cfg = true ->
  App.open_r env cfg = None ->
  App.read env cfg = inr data ->
  App.json_loads env data = inl msg ->
  App.value (App.get_dropbox_directory env st)
  = App.Raise (App.UnboundLocalError "json_data")
  /\ App.trace (App.get_dropbox_directory env st)
     = [App.ALog INFO "Looking for Dropbox configuration..." [];
        App.AExists cfg true;
        App.AOpen cfg None;
        App.ALog INFO "Found Dropbox configuration at {}" [App.JStr cfg];
        App.ARead cfg;
        App.ALog WARNING "Error loading JSON data from {}: {}"
          [App.JStr "~/.dropbox/info.json"; App.JStr msg];
        App.AClose cfg]
  /\ App.after (App.get_dropbox_directory env st) = st.
Proof.
  intros env st cfg data msg Hcfg Hex Hopen Hread Hjson.
  app_unfold. rewrite Hcfg. app_simpl. rewrite Hex. app_simpl.
  rewrite Hopen. app_simpl. rewrite Hread. app_simpl.
  rewrite Hjson. app_simpl. repeat split.
Qed.

Lemma get_dropbox_directory_invalid_json_witness :
  App.value
    (App.get_dropbox_directory
       (AppScenario.env [AppScenario.config_path] ["/home/user/Dropbox"]
          [] [] (inl "Expecting value: line 1 column 1 (char 0)") [])
       AppScenario.fresh)
  = App.Raise (App.UnboundLocalError "json_data").
Proof.
  apply (get_dropbox_directory_invalid_json
           (AppScenario.env [AppScenario.config_path] ["/home/user/Dropbox"]
              [] [] (inl "Expecting value: line 1 column 1 (char 0)") [])
           AppScenario.fresh AppScenario.config_path "{...}"
           "Expecting value: line 1 column 1 (char 0)"); reflexivity.
Defined.

(** X13: whatever the environment answers and whatever the configuration
    holds, [get_dropbox_directory] opens the configuration file at most
    once, reads it once when the open succeeded, and then always closes it,
    also when it goes on to raise: its file actions are none, a failed
    open, or open, read, close. *)
Theorem get_dropbox_directory_closes_config : forall env st,
  filter App.is_file_action (App.trace (App.get_dropbox_directory env st)) = []
  \/ (exists cfg e,
        filter App.is_file_action
          (App.trace (App.get_dropbox_directory env st))
        = [App.AOpen cfg (Some e)]
        /\ App.value (App.get_dropbox_directory env st)
           = App.Raise (App.OSError_ e))
  \/ (exists cfg,
        filter App.is_file_action
          (App.trace (App.get_dropbox_directory env st))
        = [App.AOpen cfg None; App.ARead cfg; App.AClose cfg]).
Proof.
  intros env st. app_unfold.
  destruct (App.expanduser env App.DROPBOX_CONFIG) as [cfg|] eqn:Hcfg;
    app_simpl; [| left; reflexivity].
  destruct (App.path_exists env cfg); app_simpl; [| left; reflexivity].
  destruct (App.open_r env cfg) as [e|]; app_simpl.
  { right; left. exists cfg, e. split; reflexivity. }
  right; right. exists cfg.
  destruct (App.read env cfg) as [e|data]; app_simpl; [reflexivity |].
  destruct (App.json_loads env data) as [msg|json_data]; app_simpl;
    [reflexivity |].
  destruct (App.py_iter json_data) as [e|keys]; app_simpl; [reflexivity |].
  destruct (App.search_path json_data keys) as [e|[[v acc]|]]; app_simpl;
    try reflexivity.
  - destruct (App.py_bool v); app_simpl.
    + destruct v; app_simpl; repeat env_case; reflexivity.
    + repeat env_case; reflexivity.
  - repeat env_case; reflexivity.
Qed.

Lemma search_path_not_a_container : forall d before t v rest,
  NoDup (map fst d) -> incl (before ++ (t, v) :: rest)%list d ->
  forallb (fun kv => App.account_without_path (snd kv)) before = true ->
  App.contains_path v = inl (App.TypeError "argument is not iterable") ->
  App.search_path (App.JObj d) (App.keys_of (before ++ (t, v) :: rest))
  = inl (App.TypeError "argument is not iterable").
Proof.
  intros d before t v rest Hnd. induction before as [|[k x] before IH];
    intros Hincl Hall Hv.
  - cbn [app App.keys_of map fst App.search_path App.py_getitem].
    rewrite (lookup_in_nodup t _ d Hnd (Hincl _ (or_introl eq_refl))).
    rewrite Hv. reflexivity.
  - cbn [forallb snd] in Hall. apply andb_prop in Hall as [Hx Hall].
    cbn [app App.keys_of map fst App.search_path App.py_getitem].
    rewrite (lookup_in_nodup k x d Hnd (Hincl _ (or_introl eq_refl))).
    destruct x; try discriminate Hx. cbn [App.account_without_path] in Hx.
    cbn [App.contains_path]. apply negb_true_iff in Hx. rewrite Hx.
    apply IH; [| exact Hall | exact Hv].
    intros y Hy. apply Hincl. now right.
Qed.

(** X14: an account that is null, a boolean or a number, met before any
    account with a 'path', makes [get_dropbox_directory] raise TypeError:
    a well-formed account further on is not reached and the default folder
    is not looked for. *)
Theorem get_dropbox_directory_malformed_account :
  forall env st cfg data d before t v rest,
  App.expanduser env App.DROPBOX_CONFIG = Some cfg ->
  App.path_exists env cfg = true ->
  App.open_r env cfg = None ->
  App.read env cfg = inr data ->
  App.json_loads env data = inr (App.JObj d) ->
  NoDup (map fst d) ->
  d = (before ++ (t, v) :: rest)%list ->
  forallb (fun kv => App.account_without_path (snd kv)) before = true ->
  match v with
  | App.JNull | App.JBool _ | App.JInt _ | App.JFloat _ => True
  | _ => False
  end ->
  App.value (App.get_dropbox_directory env st)
  = App.Raise (App.TypeError "argument is not iterable")
  /\ filter App.is_directory_query
       (App.trace (App.get_dropbox_directory env st)) = []
  /\ last_opt (App.trace (App.get_dropbox_directory env st))
     = Some (App.AClose cfg).
Proof.
  intros env st cfg data d before t v rest
    Hcfg Hex Hopen Hread Hjson Hnd Hd Hbefore Hv.
  assert (Hhit : App.search_path (App.JObj d) (App.keys_of d)
                 = inl (App.TypeError "argument is not iterable")).
  { rewrite Hd at 2. apply search_path_not_a_container; auto.
    - rewrite Hd. apply incl_refl.
    - destruct v; try contradiction; reflexivity. }
  read_config Hcfg Hex Hopen Hread Hjson.
  rewrite Hhit. app_simpl. repeat split.
Qed.

Lemma get_dropbox_directory_malformed_account_witness :
  App.value
    (App.get_dropbox_directory
       (AppScenario.env [AppScenario.config_path] [] [] []
          (inr (App.JObj
                  [("version", App.JInt 2);
                   ("personal", App.JObj [("path", App.JStr "/home/user/D")])]))
          [])
       AppScenario.fresh)
  = App.Raise (App.TypeError "argument is not iterable").
Proof.
  apply (get_dropbox_directory_malformed_account
           (AppScenario.env [AppScenario.config_path] [] [] []
              (inr (App.JObj
                      [("version", App.JInt 2);
                       ("personal",
                        App.JObj [("path", App.JStr "/home/user/D")])]))
              [])
           AppScenario.fresh AppScenario.config_path "{...}"
           [("version", App.JInt 2);
            ("personal", App.JObj [("path", App.JStr "/home/user/D")])]
           [] "version" (App.JInt 2)
           [("personal", App.JObj [("path", App.JStr "/home/user/D")])]);
    try reflexivity; try exact I.
  all: repeat constructor; cbn; intuition discriminate.
Defined.

(** * eos-dropbox-app.py: class DropboxLauncher *)

Ltac dl_unfold :=
  unfold App._disable_auto_updates, App._launch_dropbox_daemon,
    App._setup_config_monitor, App._launch_dropbox, App._name_acquired,
    App._exitOnError, App._quit, App.terminate_if_any, App.get, App.put,
    App.modify, App.os_path_expanduser, App.os_path_exists,
    App.os_path_isdir, App.log, App.act, App.bind, App.try_except,
    App.of_sum, App.of_error, App.ret, App.raise in *.

(** X15: [_disable_auto_updates] leaves everything alone when the
    auto-update directory exists and cannot be written.  Otherwise it
    removes an existing backup, then moves an existing directory to the
    backup, then creates the directory with mode 0, in that order, and a
    failed move means the directory is not created; it never removes
    anything but the backup. *)
Theorem disable_auto_updates_steps : forall env st orig,
  App.expanduser env App.DROPBOX_AUTOUPDATE_DIR = Some orig ->
  (App.path_exists env orig = true -> App.access_W_OK env orig = false ->
   App.value (App._disable_auto_updates env st) = App.Return tt
   /\ filter App.is_mutation (App.trace (App._disable_auto_updates env st))
      = [])
  /\ (App.path_exists env orig = false \/ App.access_W_OK env orig = true ->
      filter App.is_mutation (App.trace (App._disable_auto_updates env st))
      = ((if App.path_exists env (orig ++ ".backup")
          then [App.ARmtree (orig ++ ".backup")] else [])
         ++ (if App.path_exists env orig
             then [App.AMove orig (orig ++ ".backup")] else [])
         ++ (if App.path_exists env orig
             then match App.move env orig (orig ++ ".backup") with
                  | Some _ => []
                  | None => [App.AMkdir orig 0]
                  end
             else [App.AMkdir orig 0]))%list
      /\ App.value (App._disable_auto_updates env st)
         = match (if App.path_exists env orig
                  then App.move env orig (orig ++ ".backup") else None) with
           | Some e => App.Raise (App.OSError_ e)
           | None =>
               match App.mkdir env orig 0 with
               | Some e => App.Raise (App.OSError_ e)
               | None => App.Return tt
               end
           end)
  /\ App.after (App._disable_auto_updates env st) = st.
Proof.
  intros env st orig Horig. dl_unfold. rewrite Horig.
  cbn -[String.append].
  destruct (App.path_exists env orig) eqn:Hex; cbn -[String.append].
  - destruct (App.access_W_OK env orig) eqn:Hw; cbn -[String.append].
    + split; [discriminate |].
      destruct (App.path_exists env (orig ++ ".backup"));
        cbn -[String.append]; rewrite ?Hex; cbn -[String.append];
        destruct (App.move env orig (orig ++ ".backup"));
        cbn -[String.append];
        try (destruct (App.mkdir env orig 0); cbn -[String.append]);
        repeat split.
    + split; [intros _ _; split; reflexivity |].
      split; [intros [H | H]; discriminate | reflexivity].
  - split; [discriminate |].
    destruct (App.path_exists env (orig ++ ".backup"));
      cbn -[String.append]; rewrite ?Hex; cbn -[String.append];
      destruct (App.mkdir env orig 0); cbn -[String.append];
      repeat split.
Qed.

Lemma disable_auto_updates_steps_witness :
  filter App.is_mutation
    (App.trace
       (App._disable_auto_updates
          (AppScenario.env []
             ["/home/user/.dropbox-dist"; "/home/user/.dropbox-dist.backup"]
             ["/home/user/.dropbox-dist"] [] (inl "") [])
          AppScenario.fresh))
  = [App.ARmtree "/home/user/.dropbox-dist.backup";
     App.AMove "/home/user/.dropbox-dist" "/home/user/.dropbox-dist.backup";
     App.AMkdir "/home/user/.dropbox-dist" 0].
Proof.
  apply (disable_auto_updates_steps
           (AppScenario.env []
              ["/home/user/.dropbox-dist"; "/home/user/.dropbox-dist.backup"]
              ["/home/user/.dropbox-dist"] [] (inl "") [])
           AppScenario.fresh "/home/user/.dropbox-dist" eq_refl).
  right. reflexivity.
Defined.

(** ** Functions that do not touch the state of the launcher *)

Lemma py_getitem_error : forall v key e,
  App.py_getitem v key = inl e -> App.is_SystemExit e = false.
Proof.
  intros v key e H. unfold App.py_getitem in H.
  repeat match type of H with
         | match ?x with _ => _ end = _ => destruct x
         end;
    try discriminate H; injection H as <-; reflexivity.
Qed.

Lemma contains_path_error : forall v e,
  App.contains_path v = inl e -> App.is_SystemExit e = false.
Proof.
  intros v e H. destruct v; try discriminate H;
    injection H as <-; reflexivity.
Qed.

Lemma search_path_error : forall json_data keys e,
  App.search_path json_data keys = inl e -> App.is_SystemExit e = false.
Proof.
  intros json_data keys e. induction keys as [|k keys IH]; intro H;
    [discriminate H |].
  cbn [App.search_path] in H.
  destruct (App.py_getitem json_data k) as [e1|account] eqn:H1.
  { injection H as <-. exact (py_getitem_error _ _ _ H1). }
  destruct (App.contains_path account) as [e2|[|]] eqn:H2.
  - injection H as <-. exact (contains_path_error _ _ H2).
  - destruct (App.py_getitem account (App.JStr "path")) as [e3|p] eqn:H3;
      [| discriminate H].
    injection H as <-. exact (py_getitem_error _ _ _ H3).
  - exact (IH H).
Qed.

Lemma py_iter_error : forall v e,
  App.py_iter v = inl e -> App.is_SystemExit e = false.
Proof.
  intros v e H. destruct v; try discriminate H;
    injection H as <-; reflexivity.
Qed.

Ltac gdd_case :=
  do 2 eexists; split; [intro st; reflexivity |];
  cbn -[App.of_read_error];
  repeat split; try reflexivity; try assumption;
  match goal with
  | |- context [App.of_read_error ?e] => destruct e; reflexivity
  end.

Lemma get_dropbox_directory_pure : forall env,
  exists tr v,
    (forall st, App.get_dropbox_directory env st = App.mkRun tr st v)
    /\ filter App.is_replace_request tr = []
    /\ filter App.is_APortal tr = []
    /\ App.never_exits v
    /\ filter App.is_monitor_action tr = [].
Proof.
  intro env. app_unfold.
  destruct (App.expanduser env App.DROPBOX_CONFIG) as [cfg|] eqn:Hcfg;
    app_simpl; [| gdd_case].
  destruct (App.path_exists env cfg); app_simpl; [| gdd_case].
  destruct (App.open_r env cfg) as [e|]; app_simpl; [gdd_case |].
  destruct (App.read env cfg) as [[e|e]|data]; app_simpl;
    [gdd_case | gdd_case |].
  destruct (App.json_loads env data) as [msg|json_data]; app_simpl;
    [gdd_case |].
  destruct (App.py_iter json_data) as [e|keys] eqn:Hiter; app_simpl.
  { pose proof (py_iter_error _ _ Hiter). gdd_case. }
  destruct (App.search_path json_data keys) as [e|[[v acc]|]] eqn:Hsearch;
    app_simpl.
  { pose proof (search_path_error _ _ _ Hsearch). gdd_case. }
  - destruct (App.py_bool v); app_simpl.
    + destruct v; app_simpl; repeat env_case; gdd_case.
    + repeat env_case; gdd_case.
  - repeat env_case; gdd_case.
Qed.

Ltac pure_case :=
  do 2 eexists; split; [intro st; reflexivity | split; reflexivity].

Lemma disable_auto_updates_pure : forall env,
  exists tr v,
    (forall st, App._disable_auto_updates env st = App.mkRun tr st v)
    /\ existsb App.is_APopen tr = false
    /\ existsb App.is_AMonitor tr = false.
Proof.
  intro env. dl_unfold.
  destruct (App.expanduser env App.DROPBOX_AUTOUPDATE_DIR) as [orig|];
    cbn -[String.append]; [| pure_case].
  destruct (App.path_exists env orig) eqn:Hex; cbn -[String.append].
  - destruct (App.access_W_OK env orig); cbn -[String.append];
      [| pure_case].
    destruct (App.path_exists env (orig ++ ".backup"));
      cbn -[String.append]; rewrite ?Hex; cbn -[String.append];
      destruct (App.move env orig (orig ++ ".backup"));
      cbn -[String.append];
      try (destruct (App.mkdir env orig 0); cbn -[String.append]);
      pure_case.
  - destruct (App.path_exists env (orig ++ ".backup"));
      cbn -[String.append]; rewrite ?Hex; cbn -[String.append];
      destruct (App.mkdir env orig 0); cbn -[String.append];
      pure_case.
Qed.

(** X16: [_name_acquired] always arms the launcher to quit when the name is
    lost.  It starts the daemon only after the auto-updates were disabled
    without error, and watches the configuration only after the daemon was
    started, which is then recorded as [_launcher].  When the script of
    the daemon is missing, a launcher that owns no process logs the error,
    quits the main loop and exits with status 1. *)
Theorem name_acquired_launch_order : forall env st,
  App._quit_if_name_lost (App.after (App._name_acquired env st)) = true
  /\ (existsb App.is_APopen (App.trace (App._name_acquired env st)) = true ->
      App.value (App._disable_auto_updates env st) = App.Return tt)
  /\ (existsb App.is_AMonitor (App.trace (App._name_acquired env st)) = true ->
      exists proc,
        App.popen env App.DROPBOX_LAUNCHER = inr proc
        /\ App._launcher (App.after (App._name_acquired env st)) = Some proc)
  /\ (forall strerror,
        App.value (App._disable_auto_updates env st) = App.Return tt ->
        App.popen env App.DROPBOX_LAUNCHER = inl (App.ENOENT strerror) ->
        App._launcher st = None -> App._daemon st = None ->
        App.value (App._name_acquired env st) = App.Raise (App.SystemExit 1)
        /\ last_opt (App.trace (App._name_acquired env st))
           = Some App.AMainloopQuit
        /\ In (App.ALog ERROR "Can't find launcher script at {}"
                 [App.JStr "/app/extra/.dropbox-dist/dropboxd"])
             (App.trace (App._name_acquired env st))).
Proof.
  intros env st.
  destruct (disable_auto_updates_pure env) as [tr [v [Hd [Hpopen Hmon]]]].
  rewrite (Hd st).
  unfold App._name_acquired, App._launch_dropbox, App._launch_dropbox_daemon,
    App._setup_config_monitor, App._exitOnError, App._quit,
    App.terminate_if_any, App.get, App.modify, App.os_path_expanduser,
    App.log, App.act, App.bind, App.try_except, App.of_sum, App.of_error,
    App.ret, App.raise.
  cbn -[App._disable_auto_updates String.append existsb In last_opt].
  rewrite !Hd.
  cbn -[App._disable_auto_updates String.append existsb In last_opt].
  destruct v as [[]|e];
    cbn -[App._disable_auto_updates String.append existsb In last_opt].
  2: { cbn [existsb App.is_APopen App.is_AMonitor orb].
       rewrite Hpopen, Hmon. repeat split; discriminate. }
  repeat (match goal with
          | |- context [App.popen ?e ?p] =>
              destruct (App.popen e p) as [[]|] eqn:?
          | |- context [App.terminate ?e ?p] =>
              destruct (App.terminate e p) eqn:?
          | |- context [match App._launcher ?s with _ => _ end] =>
              destruct (App._launcher s) eqn:?
          | |- context [match App._daemon ?s with _ => _ end] =>
              destruct (App._daemon s) eqn:?
          | |- context [App.expanduser ?e ?p] =>
              destruct (App.expanduser e p) eqn:?
          end;
          cbn -[App._disable_auto_updates String.append existsb In last_opt]).
  all: split; [reflexivity |].
  all: split; [intros _; reflexivity |].
  all: split;
    [ intro Hm; rewrite ?app_nil_r in Hm;
      cbn [existsb App.is_AMonitor orb] in Hm;
      rewrite ?existsb_app, ?Hmon in Hm; cbn in Hm;
      try discriminate Hm;
      eexists; split; reflexivity
    | intros ? _ Hfnf Hnol Hnod; try congruence; try discriminate Hfnf ].
  all: split; [reflexivity |].
  all: split;
    [ unfold last_opt; rewrite ?app_nil_r; cbn [rev]; rewrite ?rev_app_distr;
      reflexivity
    | right; apply in_or_app; right; cbn; auto ].
Qed.

(** ** Opening the folder *)

Lemma filter_replace_portal : forall evs,
  filter App.is_replace_request (map App.APortal evs) = [].
Proof. induction evs; [reflexivity | exact IHevs]. Qed.

Lemma filter_portal_portal : forall evs,
  filter App.is_APortal (map App.APortal evs) = map App.APortal evs.
Proof. induction evs; [reflexivity | cbn; now rewrite IHevs]. Qed.

Ltac open_unfold :=
  unfold App._open_dropbox_directory, App._open_dropbox_when_created,
    App.portal_launcher_run, App._exitOnError, App._quit,
    App.terminate_if_any, App.get, App.modify, App.os_path_expanduser,
    App.os_path_isdir, App.os_path_exists, App.log, App.act, App.bind,
    App.try_except, App.of_sum, App.of_error, App.ret, App.raise.

Ltac open_simpl :=
  cbn -[App.get_dropbox_directory PortalLauncher.run String.append filter In
        map last_opt].

Ltac open_case :=
  match goal with
  | |- context [App.terminate ?e ?p] =>
      destruct (App.terminate e p) eqn:?
  | |- context [match App._launcher ?s with _ => _ end] =>
      destruct (App._launcher s) eqn:?
  | |- context [match App._daemon ?s with _ => _ end] =>
      destruct (App._daemon s) eqn:?
  | |- context [App.expanduser ?e ?p] =>
      destruct (App.expanduser e p) eqn:?
  | |- context [run_error ?r] =>
      destruct (run_error r) eqn:?
  end; open_simpl.

Lemma open_dropbox_directory_only_if :
  forall (U : UrlLib) env st,
  (filter App.is_APortal (App.trace (App._open_dropbox_directory env st))
   <> [] ->
   exists d,
     App.value (App.get_dropbox_directory env st) = App.Return (Some d)
     /\ truthy_str d = true /\ App.path_isdir env d = true)
  /\ (forall retcode,
        App.value (App._open_dropbox_directory env st)
        = App.Raise (App.SystemExit retcode) ->
        retcode = 1%Z
        /\ (exists d,
              App.value (App.get_dropbox_directory env st)
              = App.Return (Some d)
              /\ App.path_isdir env d = false)
        /\ filter App.is_APortal
             (App.trace (App._open_dropbox_directory env st)) = []
        /\ last_opt (App.trace (App._open_dropbox_directory env st))
           = Some App.AMainloopQuit)
  /\ App.after (App._open_dropbox_directory env st)
     = App.set_bus (App.bus (App.after (App._open_dropbox_directory env st)))
         st.
Proof.
  intros U env st.
  destruct (get_dropbox_directory_pure env) as [tr [v [Hg [_ [Hp [Hq _]]]]]].
  open_unfold. rewrite !Hg. open_simpl.
  destruct v as [[d|]|e]; open_simpl.
  - destruct (truthy_str d) eqn:Hd; open_simpl.
    + destruct (App.path_isdir env d) eqn:Hdir; open_simpl;
        repeat open_case.
      all: rewrite ?filter_app, ?Hp; open_simpl;
           rewrite ?filter_portal_portal, ?app_nil_r.
      all: destruct st; split;
             [ first [ intros _; exists d; repeat split; assumption
                     | intro Hne; exfalso; apply Hne; reflexivity ]
             | split; [| reflexivity] ].
      all: intros retcode Hret; try discriminate Hret.
      all: try match goal with
               | H : App.Raise (App.of_psutil_error ?e _) = _ |- _ =>
                   destruct e; discriminate H
               end.
      all: injection Hret as <-.
      all: split; [reflexivity |].
      all: split; [exists d; split; [reflexivity | assumption] |].
      all: split; [reflexivity |].
      all: unfold last_opt; rewrite rev_app_distr; reflexivity.
    + rewrite filter_app, Hp. destruct st.
      split; [intro Hne; exfalso; apply Hne; reflexivity |].
      split; [intros retcode Hret; discriminate Hret | reflexivity].
  - rewrite filter_app, Hp. destruct st.
    split; [intro Hne; exfalso; apply Hne; reflexivity |].
    split; [intros retcode Hret; discriminate Hret | reflexivity].
  - rewrite Hp. destruct st.
    split; [intro Hne; exfalso; apply Hne; reflexivity |].
    split; [| reflexivity].
    intros retcode Hret. injection Hret as ->. discriminate Hq.
Qed.

(* every process the launcher owns lets itself be terminated *)
Lemma quit_when_terminated : forall env st retcode,
  (forall p, App._launcher st = Some p -> App.terminate env p = None) ->
  (forall p, App._daemon st = Some p -> App.terminate env p = None) ->
  App.value (App._quit env retcode st) = App.Raise (App.SystemExit retcode)
  /\ last_opt (App.trace (App._quit env retcode st)) = Some App.AMainloopQuit
  /\ filter App.is_APortal (App.trace (App._quit env retcode st)) = [].
Proof.
  intros env st retcode Hl Hd.
  unfold App._quit, App.terminate_if_any, App.get, App.act, App.bind,
    App.ret, App.raise. cbn.
  destruct (App._launcher st) as [p|]; cbn;
    [rewrite (Hl p eq_refl); cbn |];
    (destruct (App._daemon st) as [q|]; cbn;
     [rewrite (Hd q eq_refl); cbn |]);
    repeat split.
Qed.

Lemma open_dropbox_directory_not_a_directory :
  forall (U : UrlLib) env st d,
  App.value (App.get_dropbox_directory env st) = App.Return (Some d) ->
  truthy_str d = true ->
  App.path_isdir env d = false ->
  (forall p, App._launcher st = Some p -> App.terminate env p = None) ->
  (forall p, App._daemon st = Some p -> App.terminate env p = None) ->
  App.value (App._open_dropbox_directory env st)
  = App.Raise (App.SystemExit 1)
  /\ last_opt (App.trace (App._open_dropbox_directory env st))
     = Some App.AMainloopQuit
  /\ In (App.ALog ERROR "{} is not a directory!" [App.JStr d])
       (App.trace (App._open_dropbox_directory env st))
  /\ filter App.is_APortal (App.trace (App._open_dropbox_directory env st))
     = [].
Proof.
  intros U env st d Hval Hd Hdir Hl Hdm.
  destruct (get_dropbox_directory_pure env) as [tr [v [Hg [_ [Hp [_ _]]]]]].
  rewrite Hg in Hval. cbn in Hval. subst v.
  destruct (quit_when_terminated env st 1 Hl Hdm) as [Hqv [Hql Hqp]].
  unfold App._open_dropbox_directory, App._exitOnError, App.os_path_isdir,
    App.log, App.act, App.bind, App.ret.
  rewrite Hg. cbn -[App._quit filter In last_opt String.append].
  rewrite Hd. cbn -[App._quit filter In last_opt String.append].
  rewrite Hdir. cbn -[App._quit filter In last_opt String.append].
  destruct (App._quit env 1 st) as [trq stq vq].
  cbn [App.trace App.value] in *. subst vq.
  cbn -[filter In last_opt String.append].
  split; [reflexivity |]. split; [| split].
  - unfold last_opt in *. rewrite rev_app_distr. cbn [rev].
    destruct (rev trq) as [|x l]; [discriminate Hql |].
    cbn. exact Hql.
  - apply in_or_app. right. right. right. left. reflexivity.
  - rewrite filter_app, Hp. cbn [filter app App.is_APortal].
    exact Hqp.
Qed.

Lemma open_dropbox_directory_runs_portal :
  forall (U : UrlLib) env st d target,
  App.value (App.get_dropbox_directory env st) = App.Return (Some d) ->
  truthy_str d = true ->
  App.path_isdir env d = true ->
  App.expanduser env d = Some target ->
  filter App.is_APortal (App.trace (App._open_dropbox_directory env st))
  = map App.APortal
      (events (run (App.portal env)
                 (__init__ target (Some App.directory_handled) App.py_None)
                 (App.bus st)))
  /\ App.bus (App.after (App._open_dropbox_directory env st))
     = final (run (App.portal env)
                (__init__ target (Some App.directory_handled) App.py_None)
                (App.bus st))
  /\ App.value (App._open_dropbox_directory env st)
     = match run_error (run (App.portal env)
                          (__init__ target (Some App.directory_handled)
                             App.py_None)
                          (App.bus st)) with
       | None => App.Return tt
       | Some e => App.Raise (App.PortalError e)
       end.
Proof.
  intros U env st d target Hval Hd Hdir Hexp.
  destruct (get_dropbox_directory_pure env) as [tr [v [Hg [_ [Hp [_ _]]]]]].
  rewrite Hg in Hval. cbn in Hval. subst v.
  open_unfold. rewrite !Hg. open_simpl. rewrite Hd. open_simpl.
  rewrite Hdir. open_simpl. rewrite Hexp. open_simpl.
  rewrite filter_app, Hp. cbn [filter app App.is_APortal].
  rewrite filter_portal_portal.
  destruct (run_error _); repeat split.
Qed.

(** X17: [_open_dropbox_directory] turns to the portal only for a folder
    that [get_dropbox_directory] returned and that is a directory, and for
    such a folder it does: it runs the portal launcher on [expanduser] of
    the folder, with [_directory_handled] as callback, on the bus connection
    of the process, and raises what that run raises.  When the folder
    returned is not a directory, a launcher whose processes, if it owns
    any, let themselves be terminated logs the error, quits the main loop
    and exits with status 1, without turning to the portal; and the
    launcher never exits with another status.  Of the state of the
    launcher, only the bus connection can change. *)
Theorem open_dropbox_directory_only_directories :
  forall (U : UrlLib) env st,
  (* only for a directory *)
  (filter App.is_APortal (App.trace (App._open_dropbox_directory env st))
   <> [] ->
   exists d,
     App.value (App.get_dropbox_directory env st) = App.Return (Some d)
     /\ truthy_str d = true /\ App.path_isdir env d = true)
  (* and for a directory, the portal launcher is run *)
  /\ (forall d target,
        App.value (App.get_dropbox_directory env st) = App.Return (Some d) ->
        truthy_str d = true ->
        App.path_isdir env d = true ->
        App.expanduser env d = Some target ->
        filter App.is_APortal
          (App.trace (App._open_dropbox_directory env st))
        = map App.APortal
            (events (run (App.portal env)
                       (__init__ target (Some App.directory_handled)
                          App.py_None)
                       (App.bus st)))
        /\ App.bus (App.after (App._open_dropbox_directory env st))
           = final (run (App.portal env)
                      (__init__ target (Some App.directory_handled)
                         App.py_None)
                      (App.bus st))
        /\ App.value (App._open_dropbox_directory env st)
           = match run_error (run (App.portal env)
                                (__init__ target (Some App.directory_handled)
                                   App.py_None)
                                (App.bus st)) with
             | None => App.Return tt
             | Some e => App.Raise (App.PortalError e)
             end)
  (* a folder that is not a directory: exit with status 1 *)
  /\ (forall d,
        App.value (App.get_dropbox_directory env st) = App.Return (Some d) ->
        truthy_str d = true ->
        App.path_isdir env d = false ->
        (forall p, App._launcher st = Some p -> App.terminate env p = None) ->
        (forall p, App._daemon st = Some p -> App.terminate env p = None) ->
        App.value (App._open_dropbox_directory env st)
        = App.Raise (App.SystemExit 1)
        /\ last_opt (App.trace (App._open_dropbox_directory env st))
           = Some App.AMainloopQuit
        /\ In (App.ALog ERROR "{} is not a directory!" [App.JStr d])
             (App.trace (App._open_dropbox_directory env st))
        /\ filter App.is_APortal
             (App.trace (App._open_dropbox_directory env st)) = [])
  (* no other exit *)
  /\ (forall retcode,
        App.value (App._open_dropbox_directory env st)
        = App.Raise (App.SystemExit retcode) ->
        retcode = 1%Z
        /\ (exists d,
              App.value (App.get_dropbox_directory env st)
              = App.Return (Some d)
              /\ App.path_isdir env d = false)
        /\ filter App.is_APortal
             (App.trace (App._open_dropbox_directory env st)) = []
        /\ last_opt (App.trace (App._open_dropbox_directory env st))
           = Some App.AMainloopQuit)
  /\ App.after (App._open_dropbox_directory env st)
     = App.set_bus (App.bus (App.after (App._open_dropbox_directory env st)))
         st.
Proof.
  intros U env st.
  destruct (open_dropbox_directory_only_if U env st) as [Honly [Hexit Hst]].
  split; [exact Honly |].
  split; [intros d target; apply open_dropbox_directory_runs_portal |].
  split; [intros d; apply open_dropbox_directory_not_a_directory |].
  split; [exact Hexit | exact Hst].
Qed.

Lemma open_dropbox_directory_only_directories_witness :
  (* the configured folder is a file: exit with status 1 *)
  App.value
    (App._open_dropbox_directory (U := SimpleUrl.urllib)
       (AppScenario.env
          [AppScenario.config_path; "/home/user/Dropbox (Personal)"] []
          [] [] (inr AppScenario.two_accounts) [])
       AppScenario.started)
  = App.Raise (App.SystemExit 1)
  (* the configured folder is a directory: the portal opens it *)
  /\ filter App.is_APortal
       (App.trace
          (App._open_dropbox_directory (U := SimpleUrl.urllib)
             (AppScenario.env [AppScenario.config_path]
                ["/home/user/Dropbox (Personal)"]
                [] [] (inr AppScenario.two_accounts) [])
             AppScenario.fresh))
     = map App.APortal
         (events
            (run
               (App.portal
                  (AppScenario.env [AppScenario.config_path]
                     ["/home/user/Dropbox (Personal)"]
                     [] [] (inr AppScenario.two_accounts) []))
               (__init__ (U := SimpleUrl.urllib)
                  "/home/user/Dropbox (Personal)"
                  (Some App.directory_handled) App.py_None)
               (App.bus AppScenario.fresh))).
Proof.
  split.
  - apply (proj1 (proj2 (proj2
             (open_dropbox_directory_only_directories SimpleUrl.urllib
                (AppScenario.env
                   [AppScenario.config_path; "/home/user/Dropbox (Personal)"]
                   [] [] [] (inr AppScenario.two_accounts) [])
                AppScenario.started)))
             "/home/user/Dropbox (Personal)");
      try reflexivity; intros p Hp; reflexivity.
  - apply (proj1 (proj2
             (open_dropbox_directory_only_directories SimpleUrl.urllib
                (AppScenario.env [AppScenario.config_path]
                   ["/home/user/Dropbox (Personal)"]
                   [] [] (inr AppScenario.two_accounts) [])
                AppScenario.fresh))
             "/home/user/Dropbox (Personal)" "/home/user/Dropbox (Personal)");
      reflexivity.
Defined.

(** ** The Response of the portal reaches the launcher *)

Lemma deliver_response_exact : forall id self h n response_code results,
  deliver (Response h response_code results)
    {| subscriptions := [(id, response_subscription self (Some h))];
       next_id := n |}
  = mkResult
      ((match outcome_of_code response_code with
        | Some o => [outcome_log o]
        | None => []
        end)
       ++ match _callback self with
          | Some f => [Callback f (_data self)]
          | None => []
          end)%list
      {| subscriptions := [(id, response_subscription self (Some h))];
         next_id := n |}
      (Ok tt).
Proof.
  intros id self h n response_code results.
  unfold deliver, dispatch, handle_signal, bind, registered.
  cbn [subscriptions existsb fst]. rewrite Nat.eqb_refl. cbn [orb andb].
  rewrite response_subscription_matches, String.eqb_refl.
  unfold try_except. cbn [Response sig_sender sig_object_path sig_interface
                            sig_member sig_params].
  rewrite response_received_result.
  cbn [response_subscription sub_callback sub_data].
  unfold ret. rewrite app_nil_r. reflexivity.
Qed.

(** X18: when the Response for the folder that [_open_dropbox_directory]
    asked the portal to open arrives, a launcher that owns neither the
    launcher script nor the daemon quits the main loop and exits with
    status 0; one that owns either goes on running.  The subscription
    stays on the connection in both cases. *)
Theorem directory_handled_on_response :
  forall env st id self h n response_code results,
  App.bus st
  = {| subscriptions := [(id, response_subscription self (Some h))];
       next_id := n |} ->
  _callback self = Some App.directory_handled ->
  (App._launcher st = None -> App._daemon st = None ->
   App.value (App.deliver_signal env (Response h response_code results) st)
   = App.Raise (App.SystemExit 0)
   /\ last_opt
        (App.trace
           (App.deliver_signal env (Response h response_code results) st))
      = Some App.AMainloopQuit)
  /\ (App._launcher st <> None \/ App._daemon st <> None ->
      App.value (App.deliver_signal env (Response h response_code results) st)
      = App.Return tt
      /\ ~ In App.AMainloopQuit
           (App.trace
              (App.deliver_signal env (Response h response_code results) st)))
  /\ App.bus
       (App.after
          (App.deliver_signal env (Response h response_code results) st))
     = App.bus st.
Proof.
  intros env st id self h n response_code results Hbus Hcb.
  destruct st as [owner flag cm dm launcher daemon c]. cbn in Hbus. subst c.
  unfold App.deliver_signal, App.callback, App.bind, App.get, App.modify.
  cbn -[deliver In App.run_callbacks App.try_except].
  rewrite !deliver_response_exact, Hcb.
  cbn [events final].
  unfold App.try_except.
  destruct (outcome_of_code response_code) as [[| |]|];
    destruct launcher, daemon;
    cbn -[In]; (split; [| split; [| reflexivity] ]).
  all: try (intros Hl Hd; discriminate).
  all: try (intros [Hl | Hd]; congruence).
  all: try (intros _ _; split; reflexivity).
  all: intros _; split; [reflexivity |].
  all: cbn; intuition discriminate.
Qed.

Lemma directory_handled_on_response_witness :
  App.value
    (App.deliver_signal
       (AppScenario.env [] [] [] [] (inl "") [])
       (Response Scenario.request_42 0 [])
       (App.set_bus
          {| subscriptions :=
               [(1, response_subscription
                      (PortalLauncher.__init__ (U := SimpleUrl.urllib)
                         "/home/user/Dropbox" (Some App.directory_handled)
                         App.py_None)
                      (Some Scenario.request_42))];
             next_id := 2 |}
          AppScenario.fresh))
  = App.Raise (App.SystemExit 0).
Proof.
  apply (directory_handled_on_response
           (AppScenario.env [] [] [] [] (inl "") [])
           (App.set_bus
              {| subscriptions :=
                   [(1, response_subscription
                          (PortalLauncher.__init__ (U := SimpleUrl.urllib)
                             "/home/user/Dropbox" (Some App.directory_handled)
                             App.py_None)
                          (Some Scenario.request_42))];
                 next_id := 2 |}
              AppScenario.fresh)
           1
           (PortalLauncher.__init__ (U := SimpleUrl.urllib)
              "/home/user/Dropbox" (Some App.directory_handled) App.py_None)
           Scenario.request_42 2 0%Z []); reflexivity.
Defined.

(** ** Losing the name *)

Ltac name_lost_unfold :=
  unfold App.callback, App._name_lost, App._try_own_bus_name;
  open_unfold; open_unfold.

Ltac replace_norm Hr :=
  repeat (rewrite ?filter_app, ?Hr, ?filter_replace_portal, ?app_nil_r;
          cbn [filter app App.is_replace_request]).

Lemma name_lost_step : forall (U : UrlLib) env st,
  (App._quit_if_name_lost st = true ->
   filter App.is_replace_request
     (App.trace (App.callback (App._name_lost env) st)) = []
   /\ App._quit_if_name_lost
        (App.after (App.callback (App._name_lost env) st)) = true)
  /\ (filter App.is_replace_request
        (App.trace (App.callback (App._name_lost env) st)) = []
      \/ (List.length
            (filter App.is_replace_request
               (App.trace (App.callback (App._name_lost env) st))) = 1
          /\ App._quit_if_name_lost
               (App.after (App.callback (App._name_lost env) st)) = true)).
Proof.
  intros U env st.
  destruct (get_dropbox_directory_pure env) as [tr [v [Hg [Hr [Hp [Hq _]]]]]].
  name_lost_unfold. open_simpl.
  destruct (App._quit_if_name_lost st) eqn:Hflag; open_simpl;
    rewrite ?Hg; open_simpl.
  - repeat open_case;
      try match goal with
          | |- context [App.of_psutil_error ?e _] => destruct e; open_simpl
          end;
      (split; [intros _; split; [reflexivity | exact Hflag]
              | left; reflexivity]).
  - split; [discriminate |].
    destruct v as [[d|]|e]; open_simpl.
    + destruct (truthy_str d) eqn:Hd; open_simpl.
      * rewrite ?Hg. open_simpl.
        destruct (App.path_exists env d); open_simpl.
        -- rewrite ?Hg. open_simpl. rewrite ?Hd. open_simpl.
           destruct (App.path_isdir env d); open_simpl; repeat open_case;
             try match goal with
                 | |- context [App.of_psutil_error ?e _] =>
                     destruct e; open_simpl
                 end;
             left; replace_norm Hr; reflexivity.
        -- left. replace_norm Hr. reflexivity.
      * right. destruct (Nat.eqb (App._bus_owner_id st) 0); open_simpl;
          rewrite ?app_nil_r, ?filter_app, ?Hr; split; reflexivity.
    + right. destruct (Nat.eqb (App._bus_owner_id st) 0); open_simpl;
        replace_norm Hr; split; reflexivity.
    + destruct e; open_simpl; try discriminate Hq;
        left; replace_norm Hr; reflexivity.
Qed.

Lemma name_lost_each_armed : forall (U : UrlLib) envs st,
  App._quit_if_name_lost st = true ->
  filter App.is_replace_request (App.trace (App.name_lost_each envs st)) = [].
Proof.
  intros U envs. induction envs as [|env envs IH]; intros st Hflag;
    [reflexivity |].
  cbn [App.name_lost_each]. unfold App.bind.
  destruct (name_lost_step U env st) as [Harmed _].
  destruct (Harmed Hflag) as [Hnone Hafter].
  destruct (App.callback (App._name_lost env) st) as [tr st1 [[]|e]];
    cbn [App.trace App.after] in *; [| exact Hnone].
  specialize (IH st1 Hafter).
  destruct (App.name_lost_each envs st1) as [tr' st2 v'].
  cbn [App.trace] in *. now rewrite filter_app, Hnone, IH.
Qed.

(** X19: however many times the bus name is lost, and whatever the
    environment answers each time, the launcher asks at most once to
    replace the owner of the name. *)
Theorem name_replaced_at_most_once : forall (U : UrlLib) envs st,
  List.length
    (filter App.is_replace_request (App.trace (App.name_lost_each envs st)))
  <= 1.
Proof.
  intros U envs. induction envs as [|env envs IH]; intro st;
    [cbn; auto |].
  cbn [App.name_lost_each]. unfold App.bind.
  destruct (name_lost_step U env st) as [_ Hstep].
  pose proof (name_lost_each_armed U envs) as Harmed.
  destruct (App.callback (App._name_lost env) st) as [tr st1 [[]|e]];
    cbn [App.trace App.after] in *.
  - specialize (IH st1). specialize (Harmed st1).
    destruct (App.name_lost_each envs st1) as [tr' st2 v'].
    cbn [App.trace] in *. rewrite filter_app, length_app.
    destruct Hstep as [Hnone | [Hone Hflag]].
    + rewrite Hnone. exact IH.
    + rewrite Hone, (Harmed Hflag). cbn. auto.
  - destruct Hstep as [-> | [-> _]]; cbn; auto.
Qed.

Example name_replaced_once :
  filter App.is_replace_request
    (App.trace
       (App.name_lost_each (U := SimpleUrl.urllib)
          [AppScenario.env [] [] [] [] (inl "") [];
           AppScenario.env [] [] [] [] (inl "") []]
          AppScenario.fresh))
  = [App.ABusOwn "com.dropbox.Client" 3 1].
Proof. reflexivity. Qed.

(** ** The monitors *)

Lemma filter_monitor_portal : forall evs,
  filter App.is_monitor_action (map App.APortal evs) = [].
Proof. induction evs; [reflexivity | exact IHevs]. Qed.

Ltac monitor_norm Hm :=
  repeat (rewrite ?filter_app, ?Hm, ?filter_monitor_portal, ?app_nil_r;
          cbn [filter app App.is_monitor_action]).



Ltac portal_norm Hp :=
  repeat (rewrite ?filter_app, ?Hp, ?filter_portal_portal, ?app_nil_r;
          cbn [filter app App.is_APortal]).

(** X21: [_open_dropbox_when_created] either hands the folder to the
    portal or starts to watch for it, never both.  It turns to the portal
    only when the folder that [get_dropbox_directory] returned exists and
    is a directory; when that folder does not exist it records a monitor on
    it as [_dir_monitor] and leaves the portal alone; when no folder is
    configured it does neither. *)
Theorem open_when_created_opens_or_watches : forall (U : UrlLib) env st,
  (filter App.is_APortal (App.trace (App._open_dropbox_when_created env st))
   <> [] ->
   exists d,
     App.value (App.get_dropbox_directory env st) = App.Return (Some d)
     /\ App.path_exists env d = true /\ App.path_isdir env d = true
     /\ filter App.is_monitor_action
          (App.trace (App._open_dropbox_when_created env st)) = [])
  /\ (forall d,
        App.value (App.get_dropbox_directory env st) = App.Return (Some d) ->
        App.path_exists env d = false ->
        App.value (App._open_dropbox_when_created env st) = App.Return tt
        /\ App.after (App._open_dropbox_when_created env st)
           = App.set_dir_monitor (Some d) st
        /\ filter App.is_monitor_action
             (App.trace (App._open_dropbox_when_created env st))
           = [App.AMonitor d]
        /\ filter App.is_APortal
             (App.trace (App._open_dropbox_when_created env st)) = [])
  /\ (App.value (App.get_dropbox_directory env st) = App.Return None ->
      App.value (App._open_dropbox_when_created env st) = App.Return tt
      /\ App.after (App._open_dropbox_when_created env st) = st
      /\ filter App.is_monitor_action
           (App.trace (App._open_dropbox_when_created env st)) = []
      /\ filter App.is_APortal
           (App.trace (App._open_dropbox_when_created env st)) = []).
Proof.
  intros U env st.
  destruct (get_dropbox_directory_pure env) as [tr [v [Hg [_ [Hp [_ Hm]]]]]].
  open_unfold; open_unfold. rewrite !Hg. open_simpl.
  destruct v as [[d|]|e]; open_simpl.
  - destruct (App.path_exists env d) eqn:Hex; open_simpl.
    + rewrite ?Hg. open_simpl.
      destruct (truthy_str d); open_simpl;
        [destruct (App.path_isdir env d) eqn:Hdir; open_simpl;
         repeat open_case;
         try match goal with
             | |- context [App.of_psutil_error ?e _] => destruct e; open_simpl
             end |].
      all: split; [| split; [intros d' Hd' Hex'; congruence
                            | intro Hnone; discriminate Hnone]].
      all: portal_norm Hp; monitor_norm Hm.
      all: first [ intro Hne; exfalso; apply Hne; reflexivity
                 | intros _; exists d; repeat split; assumption ].
    + portal_norm Hp. monitor_norm Hm.
      split; [intro Hne; exfalso; apply Hne; reflexivity |].
      split; [| intro Hnone; discriminate Hnone].
      intros d' Hd' _. injection Hd' as <-. repeat split.
  - portal_norm Hp. monitor_norm Hm.
    split; [intro Hne; exfalso; apply Hne; reflexivity |].
    split; [intros d' Hd'; discriminate Hd' |].
    intros _. repeat split.
  - portal_norm Hp. monitor_norm Hm.
    split; [intro Hne; exfalso; apply Hne; reflexivity |].
    split; [intros d' Hd'; discriminate Hd' | intro Hn; discriminate Hn].
Qed.

(** X22: [_on_config_changed] acts on CHANGES_DONE_HINT only.  Any other
    event leaves the launcher as it was and the portal alone, and only
    DELETED cancels the monitor of the folder, when there is one.  On
    CHANGES_DONE_HINT the monitor of the configuration is cancelled first,
    whether the file exists or not: when it does not, nothing else
    happens; when it does, the handler goes on as
    [_open_dropbox_when_created] does. *)
Theorem on_config_changed_done_hint :
  forall (U : UrlLib) env st file_path event_type,
  (event_type <> App.CHANGES_DONE_HINT ->
   App.value (App._on_config_changed env file_path event_type st)
   = App.Return tt
   /\ App.after (App._on_config_changed env file_path event_type st) = st
   /\ filter App.is_APortal
        (App.trace (App._on_config_changed env file_path event_type st)) = []
   /\ filter App.is_monitor_action
        (App.trace (App._on_config_changed env file_path event_type st))
      = match event_type, App._dir_monitor st with
        | App.DELETED, Some p => [App.AMonitorCancel p]
        | _, _ => []
        end)
  /\ (event_type = App.CHANGES_DONE_HINT ->
      forall m, App._config_monitor st = Some m ->
      (App.path_exists env file_path = false ->
       App.value (App._on_config_changed env file_path event_type st)
       = App.Return tt
       /\ App.after (App._on_config_changed env file_path event_type st) = st
       /\ filter (fun a => negb (App.is_ALog a))
            (App.trace (App._on_config_changed env file_path event_type st))
          = [App.AMonitorCancel m; App.AExists file_path false])
      /\ (App.path_exists env file_path = true ->
          App.value (App._on_config_changed env file_path event_type st)
          = App.value (App._open_dropbox_when_created env st)
          /\ App.after (App._on_config_changed env file_path event_type st)
             = App.after (App._open_dropbox_when_created env st)
          /\ exists before,
               App.trace (App._on_config_changed env file_path event_type st)
               = (before
                  ++ App.trace (App._open_dropbox_when_created env st))%list
               /\ filter (fun a => negb (App.is_ALog a)) before
                  = [App.AMonitorCancel m; App.AExists file_path true])).
Proof.
  intros U env st file_path event_type.
  unfold App._on_config_changed, App.cancel_monitor, App.os_path_exists,
    App.get, App.log, App.act, App.bind, App.ret, App.raise.
  split.
  - intro Hne.
    destruct event_type; try congruence; cbn;
      destruct (App._dir_monitor st); repeat split.
  - intros -> m Hcm. cbn [App.FileMonitorEvent_eqb negb].
    cbn -[App._open_dropbox_when_created filter]. rewrite Hcm.
    cbn -[App._open_dropbox_when_created filter].
    split; intro Hex; rewrite Hex;
      cbn -[App._open_dropbox_when_created filter].
    + repeat split.
    + destruct (App._open_dropbox_when_created env st) as [tr st1 v].
      cbn [App.trace App.after App.value].
      split; [reflexivity | split; [reflexivity |]].
      exists [App.ALog INFO "Config file monitor {}: {}"
                [App.JStr file_path; App.JInt 1];
              App.AMonitorCancel m;
              App.AExists file_path true;
              App.ALog INFO
                "Configuration for Dropbox created; opening folder when created..."
                []].
      split; reflexivity.
Qed.
